(** * trezorlib.stellar: the Stellar signing exchange and envelope conversion

    A shallow embedding of [python/src/trezorlib/stellar.py]:

    - [from_envelope], [_read_operation], [_read_amount], [_read_price] and
      [_read_asset], which turn a [stellar_sdk] transaction envelope into a
      [StellarSignTx] header and a list of operation messages;
    - [sign_tx], which sends the header and then feeds the operations to the
      device one by one for as long as the device answers
      [StellarTxOpRequest].

    Python objects that the code mutates (the header [tx], the list
    [operations], the [client]) are threaded explicitly and handed back in a
    [Store]; a raised exception is a [Raise] result. *)

From Stdlib Require Import List String Ascii ZArith Bool Arith Lia.
From Stdlib.Strings Require Import Byte.
Import ListNotations.
Local Open Scope string_scope.

(* ------------------------------------------------------------------ *)
(** ** Python values, exceptions and results *)

Definition bytes := list byte.

(** The exception classes that occur in the module.  [TransportError] stands
    for a failure of the transport underneath [client.call]. *)
Inductive PyExc : Type :=
| IndexError (msg : string)
| ValueError (msg : string)
| RuntimeError (msg : string)
| UnicodeDecodeError (msg : string)
| TrezorException (msg : string)
| TransportError (msg : string).

Inductive result (A : Type) : Type :=
| Return (a : A)
| Raise (e : PyExc).
Arguments Return {A} a.
Arguments Raise {A} e.

Definition bind {A B : Type} (r : result A) (k : A -> result B) : result B :=
  match r with
  | Return a => k a
  | Raise e => Raise e
  end.

Declare Scope py_scope.
Delimit Scope py_scope with py.
Notation "x <- c ;; k" := (bind c (fun x => k))
  (at level 61, c at next level, right associativity) : py_scope.

(** [[f(x) for x in xs]]: the elements are converted left to right and the
    first exception aborts the comprehension. *)
Fixpoint list_comprehension {A B : Type} (f : A -> result B) (xs : list A)
  : result (list B) :=
  match xs with
  | [] => Return []
  | x :: rest =>
      (y <- f x ;;
       ys <- list_comprehension f rest ;;
       Return (y :: ys))%py
  end.

(** Truth value of a list, as in [if operations:]. *)
Definition truthy {A : Type} (l : list A) : bool :=
  match l with
  | [] => false
  | _ :: _ => true
  end.

(* ------------------------------------------------------------------ *)
(** ** Protocol messages (trezorlib.messages) *)

Module messages.

(** [StellarSignTx], with the attributes that [from_envelope] and [sign_tx]
    assign.  An attribute that was never assigned is [None]. *)
Record StellarSignTx : Type := mkStellarSignTx {
  address_n : option (list Z);
  network_passphrase : option string;
  source_account : option string;
  fee : option Z;
  sequence_number : option Z;
  timebounds_start : option Z;
  timebounds_end : option Z;
  memo_type : option Z;
  memo_text : option string;
  memo_id : option Z;
  memo_hash : option bytes;
  num_operations : option Z
}.

(** [messages.StellarSignTx()] *)
Definition new_StellarSignTx : StellarSignTx :=
  mkStellarSignTx None None None None None None None None None None None None.

(** Attribute assignment [tx.<field> = v], one function per attribute. *)
Definition set_address_n (tx : StellarSignTx) (v : list Z) : StellarSignTx :=
  mkStellarSignTx (Some v) (network_passphrase tx) (source_account tx)
    (fee tx) (sequence_number tx) (timebounds_start tx) (timebounds_end tx)
    (memo_type tx) (memo_text tx) (memo_id tx) (memo_hash tx)
    (num_operations tx).

Definition set_network_passphrase (tx : StellarSignTx) (v : string) : StellarSignTx :=
  mkStellarSignTx (address_n tx) (Some v) (source_account tx) (fee tx)
    (sequence_number tx) (timebounds_start tx) (timebounds_end tx)
    (memo_type tx) (memo_text tx) (memo_id tx) (memo_hash tx)
    (num_operations tx).

Definition set_source_account (tx : StellarSignTx) (v : string) : StellarSignTx :=
  mkStellarSignTx (address_n tx) (network_passphrase tx) (Some v) (fee tx)
    (sequence_number tx) (timebounds_start tx) (timebounds_end tx)
    (memo_type tx) (memo_text tx) (memo_id tx) (memo_hash tx)
    (num_operations tx).

Definition set_fee (tx : StellarSignTx) (v : Z) : StellarSignTx :=
  mkStellarSignTx (address_n tx) (network_passphrase tx) (source_account tx)
    (Some v) (sequence_number tx) (timebounds_start tx) (timebounds_end tx)
    (memo_type tx) (memo_text tx) (memo_id tx) (memo_hash tx)
    (num_operations tx).

Definition set_sequence_number (tx : StellarSignTx) (v : Z) : StellarSignTx :=
  mkStellarSignTx (address_n tx) (network_passphrase tx) (source_account tx)
    (fee tx) (Some v) (timebounds_start tx) (timebounds_end tx)
    (memo_type tx) (memo_text tx) (memo_id tx) (memo_hash tx)
    (num_operations tx).

Definition set_timebounds_start (tx : StellarSignTx) (v : Z) : StellarSignTx :=
  mkStellarSignTx (address_n tx) (network_passphrase tx) (source_account tx)
    (fee tx) (sequence_number tx) (Some v) (timebounds_end tx)
    (memo_type tx) (memo_text tx) (memo_id tx) (memo_hash tx)
    (num_operations tx).

Definition set_timebounds_end (tx : StellarSignTx) (v : Z) : StellarSignTx :=
  mkStellarSignTx (address_n tx) (network_passphrase tx) (source_account tx)
    (fee tx) (sequence_number tx) (timebounds_start tx) (Some v)
    (memo_type tx) (memo_text tx) (memo_id tx) (memo_hash tx)
    (num_operations tx).

Definition set_memo_type (tx : StellarSignTx) (v : Z) : StellarSignTx :=
  mkStellarSignTx (address_n tx) (network_passphrase tx) (source_account tx)
    (fee tx) (sequence_number tx) (timebounds_start tx) (timebounds_end tx)
    (Some v) (memo_text tx) (memo_id tx) (memo_hash tx) (num_operations tx).

Definition set_memo_text (tx : StellarSignTx) (v : string) : StellarSignTx :=
  mkStellarSignTx (address_n tx) (network_passphrase tx) (source_account tx)
    (fee tx) (sequence_number tx) (timebounds_start tx) (timebounds_end tx)
    (memo_type tx) (Some v) (memo_id tx) (memo_hash tx) (num_operations tx).

Definition set_memo_id (tx : StellarSignTx) (v : Z) : StellarSignTx :=
  mkStellarSignTx (address_n tx) (network_passphrase tx) (source_account tx)
    (fee tx) (sequence_number tx) (timebounds_start tx) (timebounds_end tx)
    (memo_type tx) (memo_text tx) (Some v) (memo_hash tx)
    (num_operations tx).

Definition set_memo_hash (tx : StellarSignTx) (v : bytes) : StellarSignTx :=
  mkStellarSignTx (address_n tx) (network_passphrase tx) (source_account tx)
    (fee tx) (sequence_number tx) (timebounds_start tx) (timebounds_end tx)
    (memo_type tx) (memo_text tx) (memo_id tx) (Some v) (num_operations tx).

Definition set_num_operations (tx : StellarSignTx) (v : Z) : StellarSignTx :=
  mkStellarSignTx (address_n tx) (network_passphrase tx) (source_account tx)
    (fee tx) (sequence_number tx) (timebounds_start tx) (timebounds_end tx)
    (memo_type tx) (memo_text tx) (memo_id tx) (memo_hash tx) (Some v).

Record StellarAssetType : Type := mkStellarAssetType {
  type : Z;
  code : option string;
  issuer : option string
}.

(** The operation messages built by [_read_operation], one constructor per
    message class, arguments in the order of the keyword arguments. *)
Inductive StellarOp : Type :=
| StellarCreateAccountOp
    (source_account : option string) (new_account : string)
    (starting_balance : Z)
| StellarPaymentOp
    (source_account : option string) (destination_account : string)
    (asset : StellarAssetType) (amount : Z)
| StellarPathPaymentOp
    (source_account : option string) (send_asset : StellarAssetType)
    (send_max : Z) (destination_account : string)
    (destination_asset : StellarAssetType) (destination_amount : Z)
    (paths : list StellarAssetType)
| StellarManageOfferOp
    (source_account : option string)
    (selling_asset buying_asset : StellarAssetType) (amount : Z)
    (price_n price_d : Z) (offer_id : Z)
| StellarCreatePassiveOfferOp
    (source_account : option string)
    (selling_asset buying_asset : StellarAssetType) (amount : Z)
    (price_n price_d : Z)
| StellarSetOptionsOp
    (source_account : option string)
    (inflation_destination_account : option string)
    (clear_flags set_flags master_weight : option Z)
    (low_threshold medium_threshold high_threshold : option Z)
    (home_domain : option string)
    (signer_type : option Z) (signer_key : option bytes)
    (signer_weight : option Z)
| StellarChangeTrustOp
    (source_account : option string) (asset : StellarAssetType) (limit : Z)
| StellarAllowTrustOp
    (source_account : option string) (trusted_account : string)
    (asset_type : Z) (asset_code : string) (is_authorized : Z)
| StellarAccountMergeOp
    (source_account : option string) (destination_account : string)
| StellarManageDataOp
    (source_account : option string) (key : string) (value : option bytes)
| StellarBumpSequenceOp
    (source_account : option string) (bump_to : Z).

(** What [client.call] can hand back: the two classes [sign_tx] tests for
    and any other object, known by its class name. *)
Inductive Response : Type :=
| StellarTxOpRequest
| StellarSignedTx (public_key signature : bytes)
| OtherMessage (class_name : string).

(** What [sign_tx] passes to [client.call]. *)
Inductive Request : Type :=
| SignTx (tx : StellarSignTx)
| Op (op : StellarOp).

End messages.

Import messages.

(** [isinstance(resp, messages.StellarTxOpRequest)] *)
Definition isinstance_StellarTxOpRequest (resp : Response) : bool :=
  match resp with
  | StellarTxOpRequest => true
  | _ => false
  end.

(** [isinstance(resp, messages.StellarSignedTx)] *)
Definition isinstance_StellarSignedTx (resp : Response) : bool :=
  match resp with
  | StellarSignedTx _ _ => true
  | _ => false
  end.

(** [resp.__class__.__name__] *)
Definition class_name (resp : Response) : string :=
  match resp with
  | StellarTxOpRequest => "StellarTxOpRequest"
  | StellarSignedTx _ _ => "StellarSignedTx"
  | OtherMessage name => name
  end.

(* ------------------------------------------------------------------ *)
(** ** Constants of the module *)

Definition DEFAULT_NETWORK_PASSPHRASE : string :=
  "Public Global Stellar Network ; September 2015".

Definition MEMO_TYPE_NONE : Z := 0.
Definition MEMO_TYPE_TEXT : Z := 1.
Definition MEMO_TYPE_ID : Z := 2.
Definition MEMO_TYPE_HASH : Z := 3.
Definition MEMO_TYPE_RETURN : Z := 4.

Definition ASSET_TYPE_NATIVE : Z := 0.
Definition ASSET_TYPE_ALPHA4 : Z := 1.
Definition ASSET_TYPE_ALPHA12 : Z := 2.

(* ------------------------------------------------------------------ *)
(** ** The stellar_sdk objects that the converter reads *)

Module stellar_sdk.

Record MuxedAccount : Type := mkMuxedAccount { account_id : string }.

Record TimeBounds : Type := mkTimeBounds { min_time : Z; max_time : Z }.

Inductive Memo : Type :=
| NoneMemo
| TextMemo (memo_text : bytes)
| IdMemo (memo_id : Z)
| HashMemo (memo_hash : bytes)
| ReturnHashMemo (memo_return : bytes).

Record Asset : Type := mkAsset { code : string; issuer : option string }.

Record Price : Type := mkPrice { n : Z; d : Z }.

(** [Union["Price", str, Decimal]]: a [Price] object or a raw price. *)
Inductive PriceLike : Type :=
| IsPrice (p : Price)
| RawPrice (raw : string).

Inductive SignerKeyType : Type :=
| SIGNER_KEY_TYPE_ED25519
| SIGNER_KEY_TYPE_PRE_AUTH_TX
| SIGNER_KEY_TYPE_HASH_X
| SIGNER_KEY_TYPE_OTHER (value : Z).

(** [signer_type.value] *)
Definition SignerKeyType_value (t : SignerKeyType) : Z :=
  match t with
  | SIGNER_KEY_TYPE_ED25519 => 0
  | SIGNER_KEY_TYPE_PRE_AUTH_TX => 1
  | SIGNER_KEY_TYPE_HASH_X => 2
  | SIGNER_KEY_TYPE_OTHER v => v
  end.

(** The XDR union [op.signer.signer_key.signer_key]: its discriminant
    [type] selects the arm that is set, and the arm holds a [uint256]. *)
Inductive XdrSignerKey : Type :=
| xdr_ed25519 (uint256 : bytes)
| xdr_pre_auth_tx (uint256 : bytes)
| xdr_hash_x (uint256 : bytes)
| xdr_other (type_value : Z).

(** [signer_key.type] *)
Definition XdrSignerKey_type (k : XdrSignerKey) : SignerKeyType :=
  match k with
  | xdr_ed25519 _ => SIGNER_KEY_TYPE_ED25519
  | xdr_pre_auth_tx _ => SIGNER_KEY_TYPE_PRE_AUTH_TX
  | xdr_hash_x _ => SIGNER_KEY_TYPE_HASH_X
  | xdr_other v => SIGNER_KEY_TYPE_OTHER v
  end.

(** [op.signer] *)
Record Signer : Type := mkSigner {
  signer_key : XdrSignerKey;
  weight : Z
}.

Inductive TrustLineEntryFlag : Type :=
| UNAUTHORIZED_FLAG
| AUTHORIZED_FLAG
| AUTHORIZED_TO_MAINTAIN_LIABILITIES_FLAG.

(** [op.authorize.value] *)
Definition TrustLineEntryFlag_value (f : TrustLineEntryFlag) : Z :=
  match f with
  | UNAUTHORIZED_FLAG => 0
  | AUTHORIZED_FLAG => 1
  | AUTHORIZED_TO_MAINTAIN_LIABILITIES_FLAG => 2
  end.

(** The subclasses of [Operation] with the attributes that
    [_read_operation] reads; [source] is [None] or an account. *)
Inductive Operation : Type :=
| CreateAccount
    (source : option MuxedAccount) (destination : string)
    (starting_balance : string)
| Payment
    (source : option MuxedAccount) (destination : MuxedAccount)
    (asset : Asset) (amount : string)
| PathPaymentStrictReceive
    (source : option MuxedAccount) (destination : MuxedAccount)
    (send_asset : Asset) (send_max : string)
    (dest_asset : Asset) (dest_amount : string) (path : list Asset)
| ManageSellOffer
    (source : option MuxedAccount) (selling buying : Asset)
    (amount : string) (price : PriceLike) (offer_id : Z)
| CreatePassiveSellOffer
    (source : option MuxedAccount) (selling buying : Asset)
    (amount : string) (price : PriceLike)
| SetOptions
    (source : option MuxedAccount) (inflation_dest : option string)
    (clear_flags set_flags master_weight : option Z)
    (low_threshold med_threshold high_threshold : option Z)
    (home_domain : option string) (signer : option Signer)
| ChangeTrust
    (source : option MuxedAccount) (asset : Asset) (limit : string)
| AllowTrust
    (source : option MuxedAccount) (trustor : string)
    (asset_code : string) (authorize : TrustLineEntryFlag)
| AccountMerge
    (source : option MuxedAccount) (destination : MuxedAccount)
| ManageData
    (source : option MuxedAccount) (data_name : string)
    (data_value : option bytes)
| BumpSequence
    (source : option MuxedAccount) (bump_to : Z)
| OtherOperation
    (source : option MuxedAccount) (class_name : string).

Record Transaction : Type := mkTransaction {
  source : MuxedAccount;
  fee : Z;
  sequence : Z;
  time_bounds : option TimeBounds;
  memo : Memo;
  operations : list Operation
}.

Record TransactionEnvelope : Type := mkTransactionEnvelope {
  transaction : Transaction
}.

End stellar_sdk.

(** The functions of the SDK and of the Python runtime that the converter
    calls, and the flag that records whether the SDK could be imported. *)
Class StellarSdk : Type := {
  HAVE_STELLAR_SDK : bool;
  (** [asset.is_native()] *)
  is_native : stellar_sdk.Asset -> bool;
  (** [asset.guess_asset_type()] *)
  guess_asset_type : stellar_sdk.Asset -> string;
  (** [Operation.to_xdr_amount(amount)] *)
  to_xdr_amount : string -> result Z;
  (** [Price.from_raw_price(price)] *)
  from_raw_price : string -> result stellar_sdk.Price;
  (** [memo.memo_text.decode("utf-8")] *)
  decode_utf8 : bytes -> result string
}.


(* ------------------------------------------------------------------ *)
(** ** from_envelope and its helpers *)

Section Converter.

Context {sdk : StellarSdk}.

Local Open Scope py_scope.

Definition _read_amount (amount : string) : result Z :=
  to_xdr_amount amount.

Definition _read_price (price : stellar_sdk.PriceLike)
  : result stellar_sdk.Price :=
  match price with
  | stellar_sdk.IsPrice p => Return p
  | stellar_sdk.RawPrice raw => from_raw_price raw
  end.

Definition _read_asset (asset : stellar_sdk.Asset) : result StellarAssetType :=
  if is_native asset then
    Return (mkStellarAssetType ASSET_TYPE_NATIVE None None)
  else if (guess_asset_type asset =? "credit_alphanum4")%string then
    Return (mkStellarAssetType ASSET_TYPE_ALPHA4
              (Some (stellar_sdk.code asset)) (stellar_sdk.issuer asset))
  else if (guess_asset_type asset =? "credit_alphanum12")%string then
    Return (mkStellarAssetType ASSET_TYPE_ALPHA12
              (Some (stellar_sdk.code asset)) (stellar_sdk.issuer asset))
  else Raise (ValueError "Unsupported asset type").

(** [op.source.account_id if op.source else None] *)
Definition read_source (source : option stellar_sdk.MuxedAccount)
  : option string :=
  match source with
  | Some account => Some (stellar_sdk.account_id account)
  | None => None
  end.

Definition _read_operation (op : stellar_sdk.Operation) : result StellarOp :=
  match op with
  | stellar_sdk.CreateAccount source destination starting_balance =>
      let source_account := read_source source in
      starting_balance <- _read_amount starting_balance ;;
      Return (StellarCreateAccountOp source_account destination
                starting_balance)
  | stellar_sdk.Payment source destination asset amount =>
      let source_account := read_source source in
      asset <- _read_asset asset ;;
      amount <- _read_amount amount ;;
      Return (StellarPaymentOp source_account
                (stellar_sdk.account_id destination) asset amount)
  | stellar_sdk.PathPaymentStrictReceive source destination send_asset
      send_max dest_asset dest_amount path =>
      let source_account := read_source source in
      send_asset <- _read_asset send_asset ;;
      send_max <- _read_amount send_max ;;
      destination_asset <- _read_asset dest_asset ;;
      destination_amount <- _read_amount dest_amount ;;
      paths <- list_comprehension _read_asset path ;;
      Return (StellarPathPaymentOp source_account send_asset send_max
                (stellar_sdk.account_id destination) destination_asset
                destination_amount paths)
  | stellar_sdk.ManageSellOffer source selling buying amount price offer_id =>
      let source_account := read_source source in
      price <- _read_price price ;;
      selling_asset <- _read_asset selling ;;
      buying_asset <- _read_asset buying ;;
      amount <- _read_amount amount ;;
      Return (StellarManageOfferOp source_account selling_asset buying_asset
                amount (stellar_sdk.n price) (stellar_sdk.d price) offer_id)
  | stellar_sdk.CreatePassiveSellOffer source selling buying amount price =>
      let source_account := read_source source in
      price <- _read_price price ;;
      selling_asset <- _read_asset selling ;;
      buying_asset <- _read_asset buying ;;
      amount <- _read_amount amount ;;
      Return (StellarCreatePassiveOfferOp source_account selling_asset
                buying_asset amount (stellar_sdk.n price)
                (stellar_sdk.d price))
  | stellar_sdk.SetOptions source inflation_dest clear_flags set_flags
      master_weight low_threshold med_threshold high_threshold home_domain
      signer =>
      let source_account := read_source source in
      let operation signer_type signer_key signer_weight :=
        StellarSetOptionsOp source_account inflation_dest clear_flags
          set_flags master_weight low_threshold med_threshold high_threshold
          home_domain signer_type signer_key signer_weight in
      match signer with
      | None => Return (operation None None None)
      | Some s =>
          let signer_type :=
            stellar_sdk.XdrSignerKey_type (stellar_sdk.signer_key s) in
          signer_key <-
            match stellar_sdk.signer_key s with
            | stellar_sdk.xdr_ed25519 uint256 => Return uint256
            | stellar_sdk.xdr_hash_x uint256 => Return uint256
            | stellar_sdk.xdr_pre_auth_tx uint256 => Return uint256
            | stellar_sdk.xdr_other _ =>
                Raise (ValueError "Unsupported signer key type")
            end ;;
          Return (operation
                    (Some (stellar_sdk.SignerKeyType_value signer_type))
                    (Some signer_key) (Some (stellar_sdk.weight s)))
      end
  | stellar_sdk.ChangeTrust source asset limit =>
      let source_account := read_source source in
      asset <- _read_asset asset ;;
      limit <- _read_amount limit ;;
      Return (StellarChangeTrustOp source_account asset limit)
  | stellar_sdk.AllowTrust source trustor asset_code authorize =>
      let source_account := read_source source in
      match authorize with
      | stellar_sdk.UNAUTHORIZED_FLAG | stellar_sdk.AUTHORIZED_FLAG =>
          let asset_type :=
            if (String.length asset_code <=? 4)%nat then ASSET_TYPE_ALPHA4
            else ASSET_TYPE_ALPHA12 in
          Return (StellarAllowTrustOp source_account trustor asset_type
                    asset_code (stellar_sdk.TrustLineEntryFlag_value authorize))
      | _ => Raise (ValueError "Unsupported trust line flag")
      end
  | stellar_sdk.AccountMerge source destination =>
      let source_account := read_source source in
      Return (StellarAccountMergeOp source_account
                (stellar_sdk.account_id destination))
  | stellar_sdk.ManageData source data_name data_value =>
      let source_account := read_source source in
      Return (StellarManageDataOp source_account data_name data_value)
  | stellar_sdk.BumpSequence source bump_to =>
      let source_account := read_source source in
      Return (StellarBumpSequenceOp source_account bump_to)
  | stellar_sdk.OtherOperation source name =>
      Raise (ValueError ("Unknown operation type: " ++ name))
  end.

Definition from_envelope (envelope : stellar_sdk.TransactionEnvelope)
  : result (StellarSignTx * list StellarOp) :=
  if negb HAVE_STELLAR_SDK then
    Raise (RuntimeError "Stellar SDK not available")
  else
    let tx := new_StellarSignTx in
    let parsed_tx := stellar_sdk.transaction envelope in
    let tx :=
      set_source_account tx
        (stellar_sdk.account_id (stellar_sdk.source parsed_tx)) in
    let tx := set_fee tx (stellar_sdk.fee parsed_tx) in
    let tx := set_sequence_number tx (stellar_sdk.sequence parsed_tx) in
    let tx :=
      match stellar_sdk.time_bounds parsed_tx with
      | Some time_bounds =>
          let tx :=
            set_timebounds_start tx (stellar_sdk.min_time time_bounds) in
          set_timebounds_end tx (stellar_sdk.max_time time_bounds)
      | None => tx
      end in
    tx <-
      match stellar_sdk.memo parsed_tx with
      | stellar_sdk.TextMemo memo_text =>
          let tx := set_memo_type tx MEMO_TYPE_TEXT in
          text <- decode_utf8 memo_text ;;
          Return (set_memo_text tx text)
      | stellar_sdk.IdMemo memo_id =>
          let tx := set_memo_type tx MEMO_TYPE_ID in
          Return (set_memo_id tx memo_id)
      | stellar_sdk.HashMemo memo_hash =>
          let tx := set_memo_type tx MEMO_TYPE_HASH in
          Return (set_memo_hash tx memo_hash)
      | stellar_sdk.ReturnHashMemo memo_return =>
          let tx := set_memo_type tx MEMO_TYPE_RETURN in
          Return (set_memo_hash tx memo_return)
      | stellar_sdk.NoneMemo =>
          Return (set_memo_type tx MEMO_TYPE_NONE)
      end ;;
    let tx :=
      set_num_operations tx
        (Z.of_nat (List.length (stellar_sdk.operations parsed_tx))) in
    operations <-
      list_comprehension _read_operation (stellar_sdk.operations parsed_tx) ;;
    Return (tx, operations).

End Converter.

(* ------------------------------------------------------------------ *)
(** ** The client *)

(** One round trip of [client.call]: the message passed in and what came
    back, a response or the exception that the call raised. *)
Definition Exchange : Type := (Request * result Response)%type.

(** Modelled from the spec: [client.call] is the transport of the spec, one
    blocking send followed by one blocking receive that either hands back a
    message or fails.  The remote side is [device]: its answer to the
    round trip number [i], counted from 0 over the life of the client.
    [trace] records the round trips made so far, oldest first. *)
Record Client : Type := mkClient {
  device : nat -> result Response;
  trace : list Exchange
}.

Definition call (client : Client) (msg : Request) : Client * result Response :=
  let answer := device client (List.length (trace client)) in
  (mkClient (device client) (trace client ++ [(msg, answer)]), answer).

(** A client that has not talked to its device yet. *)
Definition connect (device : nat -> result Response) : Client :=
  mkClient device [].

(* ------------------------------------------------------------------ *)
(** ** sign_tx *)

(** The objects that [sign_tx] mutates, as the caller finds them after the
    call has returned or raised. *)
Record Store : Type := mkStore {
  client : Client;
  tx : StellarSignTx;
  operations : list StellarOp
}.

(** The loop
    [while isinstance(resp, messages.StellarTxOpRequest):
         resp = client.call(operations.pop(0))]
    without the handler around it.  [operations.pop(0)] on the empty list
    raises [IndexError] before anything is sent. *)
Fixpoint send_operations (resp : Response) (operations : list StellarOp)
  (client : Client) {struct operations}
  : Client * list StellarOp * result Response :=
  if isinstance_StellarTxOpRequest resp then
    match operations with
    | [] => (client, [], Raise (IndexError "pop from empty list"))
    | op :: operations =>
        match call client (Op op) with
        | (client, Return resp) => send_operations resp operations client
        | (client, Raise e) => (client, operations, Raise e)
        end
    end
  else (client, operations, Return resp).

Definition sign_tx (client : Client) (tx : StellarSignTx)
  (operations : list StellarOp) (address_n : list Z)
  (network_passphrase : string) : Store * result Response :=
  let tx := set_network_passphrase tx network_passphrase in
  let tx := set_address_n tx address_n in
  let tx := set_num_operations tx (Z.of_nat (List.length operations)) in
  match call client (SignTx tx) with
  | (client, Raise e) => (mkStore client tx operations, Raise e)
  | (client, Return resp) =>
      let '(client, operations, looped) :=
        send_operations resp operations client in
      let store := mkStore client tx operations in
      match looped with
      | Raise (IndexError _) =>
          (store,
           Raise (TrezorException
                    "Reached end of operations without a signature."))
      | Raise e => (store, Raise e)
      | Return resp =>
          if negb (isinstance_StellarSignedTx resp) then
            (store,
             Raise (TrezorException
                      ("Unexpected message: " ++ class_name resp)))
          else if truthy operations then
            (store,
             Raise (TrezorException
                      "Received a signature before processing all operations."))
          else (store, Return resp)
      end
  end.

(* ------------------------------------------------------------------ *)
(** ** Vocabulary for the statements about sign_tx *)

(** The header as [sign_tx] leaves it after its three assignments. *)
Definition header (tx : StellarSignTx) (operations : list StellarOp)
  (address_n : list Z) (network_passphrase : string) : StellarSignTx :=
  set_num_operations
    (set_address_n (set_network_passphrase tx network_passphrase) address_n)
    (Z.of_nat (List.length operations)).

(** The three exceptions that [sign_tx] raises on its own. *)
Definition operations_exhausted : PyExc :=
  TrezorException "Reached end of operations without a signature.".

Definition protocol_violation (name : string) : PyExc :=
  TrezorException ("Unexpected message: " ++ name).

Definition premature_signature : PyExc :=
  TrezorException "Received a signature before processing all operations.".

(** The device's answer to the round trip number [i] counted from now. *)
Definition answer (client : Client) (i : nat) : result Response :=
  device client (List.length (trace client) + i).

(** The requests passed to [client.call] so far, oldest first. *)
Definition sent (client : Client) : list Request :=
  map fst (trace client).

(** The round trips that sending [msgs] one after the other produces when
    the first of them is round trip number [i]. *)
Fixpoint exchanges (device : nat -> result Response) (i : nat)
  (msgs : list Request) : list Exchange :=
  match msgs with
  | [] => []
  | msg :: msgs => (msg, device i) :: exchanges device (S i) msgs
  end.

(** The client after [msgs] have been passed to [call] one by one. *)
Definition after (client : Client) (msgs : list Request) : Client :=
  mkClient (device client)
    (trace client
       ++ exchanges (device client) (List.length (trace client)) msgs).

(** The failure kinds of the specification. *)
Inductive FailureKind : Type :=
| ProtocolViolation
| OperationsExhausted
| PrematureSignature
| TransportFault.

(** What a caller can tell from the class and the message of the exception
    that [sign_tx] raised. *)
Definition failure_kind (e : PyExc) : option FailureKind :=
  match e with
  | TransportError _ => Some TransportFault
  | TrezorException msg =>
      if (msg =? "Reached end of operations without a signature.")%string
      then Some OperationsExhausted
      else if (msg =?
               "Received a signature before processing all operations.")%string
      then Some PrematureSignature
      else if prefix "Unexpected message: " msg
      then Some ProtocolViolation
      else None
  | _ => None
  end.

(** What went wrong, read off the objects that [sign_tx] leaves behind: the
    last round trip and what is left of the queue. *)
Definition broken_invariant (store : Store) : option FailureKind :=
  match last (map (fun x => Some (snd x)) (trace (client store))) None with
  | None => None
  | Some (Raise _) => Some TransportFault
  | Some (Return StellarTxOpRequest) =>
      if truthy (operations store) then None else Some OperationsExhausted
  | Some (Return (StellarSignedTx _ _)) =>
      if truthy (operations store) then Some PrematureSignature else None
  | Some (Return (OtherMessage _)) => Some ProtocolViolation
  end.

(** The transport contract of the specification: a round trip hands back a
    message or fails with a transport error. *)
Definition transport_contract (client : Client) : Prop :=
  forall i e, answer client i = Raise e -> exists msg, e = TransportError msg.

(* ------------------------------------------------------------------ *)
(** ** Sample data *)

(** A device that gives the listed answers in turn and then stops
    answering, so that the transport times out. *)
Definition scripted (answers : list (result Response))
  : nat -> result Response :=
  fun i => nth i answers (Raise (TransportError "timeout")).

Definition sample_tx : StellarSignTx :=
  mkStellarSignTx None None (Some "GAAA") (Some 100%Z) (Some 7%Z) None None
    (Some MEMO_TYPE_NONE) None None None (Some 99%Z).

Definition sample_operations : list StellarOp :=
  [ StellarBumpSequenceOp None 5%Z;
    StellarAccountMergeOp (Some "GAAA") "GBBB";
    StellarManageDataOp None "key" None ].

Definition sample_signed : Response := StellarSignedTx [x01] [x02; x03].

Definition sample_address_n : list Z := [2147483692; 2147483796; 2147483648]%Z.

#[local] Instance sample_sdk : StellarSdk := {|
  HAVE_STELLAR_SDK := true;
  is_native := fun asset =>
    match stellar_sdk.issuer asset with
    | None => true
    | Some _ => false
    end;
  guess_asset_type := fun asset =>
    match stellar_sdk.issuer asset with
    | None => "native"
    | Some _ =>
        if (String.length (stellar_sdk.code asset) <=? 4)%nat
        then "credit_alphanum4" else "credit_alphanum12"
    end;
  to_xdr_amount := fun amount =>
    if (amount =? "1")%string then Return 10000000%Z
    else Raise (ValueError "Value of argument must be a valid amount");
  from_raw_price := fun raw =>
    if (raw =? "0.5")%string then Return (stellar_sdk.mkPrice 1 2)
    else Raise (ValueError "Invalid price");
  decode_utf8 := fun b => Return (string_of_list_byte b)
|}.

Definition sample_envelope : stellar_sdk.TransactionEnvelope :=
  stellar_sdk.mkTransactionEnvelope
    (stellar_sdk.mkTransaction (stellar_sdk.mkMuxedAccount "GAAA") 200%Z 8%Z
       (Some (stellar_sdk.mkTimeBounds 0 1700000000)) (stellar_sdk.IdMemo 42)
       [ stellar_sdk.Payment None (stellar_sdk.mkMuxedAccount "GBBB")
           (stellar_sdk.mkAsset "USD" (Some "GCCC")) "1";
         stellar_sdk.BumpSequence
           (Some (stellar_sdk.mkMuxedAccount "GDDD")) 9%Z ]).

(** What [from_envelope] makes of [sample_envelope] with [sample_sdk]. *)
Definition sample_converted_tx : StellarSignTx :=
  mkStellarSignTx None None (Some "GAAA") (Some 200%Z) (Some 8%Z) (Some 0%Z)
    (Some 1700000000%Z) (Some MEMO_TYPE_ID) None (Some 42%Z) None (Some 2%Z).

Definition sample_converted_operations : list StellarOp :=
  [ StellarPaymentOp None "GBBB"
      (mkStellarAssetType ASSET_TYPE_ALPHA4 (Some "USD") (Some "GCCC"))
      10000000%Z;
    StellarBumpSequenceOp (Some "GDDD") 9%Z ].

(* ------------------------------------------------------------------ *)
(** ** Vocabulary for the statements about the converter *)

(** [op.source] *)
Definition Operation_source (op : stellar_sdk.Operation)
  : option stellar_sdk.MuxedAccount :=
  match op with
  | stellar_sdk.CreateAccount source _ _ => source
  | stellar_sdk.Payment source _ _ _ => source
  | stellar_sdk.PathPaymentStrictReceive source _ _ _ _ _ _ => source
  | stellar_sdk.ManageSellOffer source _ _ _ _ _ => source
  | stellar_sdk.CreatePassiveSellOffer source _ _ _ _ => source
  | stellar_sdk.SetOptions source _ _ _ _ _ _ _ _ _ => source
  | stellar_sdk.ChangeTrust source _ _ => source
  | stellar_sdk.AllowTrust source _ _ _ => source
  | stellar_sdk.AccountMerge source _ => source
  | stellar_sdk.ManageData source _ _ => source
  | stellar_sdk.BumpSequence source _ => source
  | stellar_sdk.OtherOperation source _ => source
  end.

(** [msg.source_account] of an operation message *)
Definition StellarOp_source_account (msg : StellarOp) : option string :=
  match msg with
  | StellarCreateAccountOp source_account _ _ => source_account
  | StellarPaymentOp source_account _ _ _ => source_account
  | StellarPathPaymentOp source_account _ _ _ _ _ _ => source_account
  | StellarManageOfferOp source_account _ _ _ _ _ _ => source_account
  | StellarCreatePassiveOfferOp source_account _ _ _ _ _ => source_account
  | StellarSetOptionsOp source_account _ _ _ _ _ _ _ _ _ _ _ =>
      source_account
  | StellarChangeTrustOp source_account _ _ => source_account
  | StellarAllowTrustOp source_account _ _ _ _ => source_account
  | StellarAccountMergeOp source_account _ => source_account
  | StellarManageDataOp source_account _ _ => source_account
  | StellarBumpSequenceOp source_account _ => source_account
  end.

(** An envelope with an operation that the converter does not know. *)
Definition sample_envelope_with_inflation : stellar_sdk.TransactionEnvelope :=
  stellar_sdk.mkTransactionEnvelope
    (stellar_sdk.mkTransaction (stellar_sdk.mkMuxedAccount "GAAA") 200%Z 8%Z
       None stellar_sdk.NoneMemo
       [ stellar_sdk.BumpSequence None 9%Z;
         stellar_sdk.OtherOperation None "Inflation";
         stellar_sdk.Payment None (stellar_sdk.mkMuxedAccount "GBBB")
           (stellar_sdk.mkAsset "USD" (Some "GCCC")) "not an amount" ]).

(** An SDK whose decoder accepts only ASCII, to have a memo that does not
    decode. *)
Definition ascii_sdk : StellarSdk := {|
  HAVE_STELLAR_SDK := true;
  is_native := is_native (StellarSdk := sample_sdk);
  guess_asset_type := guess_asset_type (StellarSdk := sample_sdk);
  to_xdr_amount := to_xdr_amount (StellarSdk := sample_sdk);
  from_raw_price := from_raw_price (StellarSdk := sample_sdk);
  decode_utf8 := fun b =>
    if forallb (fun c => (Byte.to_N c <? 128)%N) b
    then Return (string_of_list_byte b)
    else Raise (UnicodeDecodeError "invalid start byte")
|}.

Definition sample_envelope_with_bad_memo : stellar_sdk.TransactionEnvelope :=
  stellar_sdk.mkTransactionEnvelope
    (stellar_sdk.mkTransaction (stellar_sdk.mkMuxedAccount "GAAA") 200%Z 8%Z
       None (stellar_sdk.TextMemo [xff; x41])
       [ stellar_sdk.OtherOperation None "Inflation" ]).

(* ------------------------------------------------------------------ *)
(** ** Round trips *)

Local Open Scope list_scope.

Lemma exchanges_length device i msgs :
  List.length (exchanges device i msgs) = List.length msgs.
Proof.
  revert i; induction msgs as [|msg msgs IH]; intros i; simpl; auto.
Qed.

Lemma exchanges_app device i msgs1 msgs2 :
  exchanges device i (msgs1 ++ msgs2)
  = exchanges device i msgs1
      ++ exchanges device (i + List.length msgs1) msgs2.
Proof.
  revert i; induction msgs1 as [|msg msgs1 IH]; intros i; simpl.
  - now rewrite Nat.add_0_r.
  - now rewrite IH, Nat.add_succ_r.
Qed.

Lemma exchanges_requests device i msgs :
  map fst (exchanges device i msgs) = msgs.
Proof.
  revert i; induction msgs as [|msg msgs IH]; intros i; simpl;
    [reflexivity | now rewrite IH].
Qed.

Lemma exchanges_nth device i msgs k msg :
  nth_error msgs k = Some msg ->
  nth_error (exchanges device i msgs) k = Some (msg, device (i + k)).
Proof.
  revert i k; induction msgs as [|m msgs IH]; intros i [|k] H;
    simpl in *; try discriminate.
  - injection H as ->. now rewrite Nat.add_0_r.
  - rewrite (IH (S i) k H). now rewrite Nat.add_succ_r.
Qed.

Lemma after_nil client : after client [] = client.
Proof.
  destruct client as [dev tr]; unfold after; simpl. now rewrite app_nil_r.
Qed.

Lemma after_after client msgs1 msgs2 :
  after (after client msgs1) msgs2 = after client (msgs1 ++ msgs2).
Proof.
  unfold after; simpl.
  now rewrite length_app, exchanges_length, exchanges_app, app_assoc.
Qed.

Lemma answer_after client msgs i :
  answer (after client msgs) i = answer client (List.length msgs + i).
Proof.
  unfold answer, after; simpl.
  now rewrite length_app, exchanges_length, Nat.add_assoc.
Qed.

Lemma call_after client msg :
  call client msg = (after client [msg], answer client 0).
Proof.
  unfold call, after, answer; simpl. now rewrite Nat.add_0_r.
Qed.

Lemma sent_after client msgs : sent (after client msgs) = sent client ++ msgs.
Proof.
  unfold sent, after; simpl. now rewrite map_app, exchanges_requests.
Qed.

Lemma trace_after_length client msgs :
  List.length (trace (after client msgs))
  = List.length (trace client) + List.length msgs.
Proof.
  unfold after; simpl. now rewrite length_app, exchanges_length.
Qed.

(* ------------------------------------------------------------------ *)
(** ** The loop *)

Lemma not_request_isinstance (o : result Response) :
  o <> Return StellarTxOpRequest ->
  match o with
  | Return resp => isinstance_StellarTxOpRequest resp = false
  | Raise _ => True
  end.
Proof.
  destruct o as [[| |]|]; simpl; intros H; auto. now elim H.
Qed.

(** A response of another class ends the loop at once. *)
Lemma send_operations_done resp ops client :
  isinstance_StellarTxOpRequest resp = false ->
  send_operations resp ops client = (client, ops, Return resp).
Proof.
  intros H; destruct ops; simpl; now rewrite H.
Qed.

(** The device asks [j] more times and then answers [o], which is not a
    request: [S j] operations are popped and sent, and the loop ends with
    [o]. *)
Lemma send_operations_until j :
  forall ops client o,
    j < List.length ops ->
    (forall i, i < j -> answer client i = Return StellarTxOpRequest) ->
    answer client j = o ->
    o <> Return StellarTxOpRequest ->
    send_operations StellarTxOpRequest ops client
    = (after client (map Op (firstn (S j) ops)), skipn (S j) ops, o).
Proof.
  induction j as [|j IH]; intros ops client o Hlt Hreq Hj Hne;
    (destruct ops as [|op rest]; simpl in Hlt; [lia|]);
    cbn [send_operations isinstance_StellarTxOpRequest];
    rewrite call_after.
  - rewrite Hj. pose proof (not_request_isinstance o Hne) as Hcls.
    destruct o as [resp|e]; simpl.
    + now rewrite send_operations_done.
    + reflexivity.
  - rewrite (Hreq 0) by lia.
    rewrite (IH rest (after client [Op op]) o); try assumption.
    + now rewrite after_after.
    + lia.
    + intros i Hi. rewrite answer_after. apply Hreq. simpl; lia.
    + now rewrite answer_after.
Qed.

(** The device keeps asking until the queue is empty: everything is sent
    and the next [pop] raises. *)
Lemma send_operations_all ops :
  forall client,
    (forall i, i < List.length ops ->
               answer client i = Return StellarTxOpRequest) ->
    send_operations StellarTxOpRequest ops client
    = (after client (map Op ops), [],
       Raise (IndexError "pop from empty list")).
Proof.
  induction ops as [|op rest IH]; intros client Hreq;
    cbn [send_operations isinstance_StellarTxOpRequest].
  - now rewrite after_nil.
  - rewrite call_after, (Hreq 0) by (simpl; lia).
    rewrite IH.
    + now rewrite after_after.
    + intros i Hi. rewrite answer_after. apply Hreq. simpl in *; lia.
Qed.

(* ------------------------------------------------------------------ *)
(** ** Every run of sign_tx *)

(** The device asks [j] times, [j] at most the number of operations, and
    then answers [o], which is not a request. *)
Lemma sign_tx_stops j client tx ops address_n passphrase o :
  j <= List.length ops ->
  (forall i, i < j -> answer client i = Return StellarTxOpRequest) ->
  answer client j = o ->
  o <> Return StellarTxOpRequest ->
  sign_tx client tx ops address_n passphrase
  = (mkStore
       (after client
          (SignTx (header tx ops address_n passphrase)
             :: map Op (firstn j ops)))
       (header tx ops address_n passphrase)
       (skipn j ops),
     match o with
     | Raise e =>
         match j, e with
         | S _, IndexError _ => Raise operations_exhausted
         | _, _ => Raise e
         end
     | Return resp =>
         if negb (isinstance_StellarSignedTx resp)
         then Raise (protocol_violation (class_name resp))
         else if truthy (skipn j ops) then Raise premature_signature
         else Return resp
     end).
Proof.
  intros Hle Hreq Hj Hne.
  unfold sign_tx. fold (header tx ops address_n passphrase).
  set (hdr := header tx ops address_n passphrase).
  rewrite call_after.
  pose proof (not_request_isinstance o Hne) as Hcls.
  destruct j as [|j].
  - rewrite Hj. destruct o as [resp|e].
    + rewrite send_operations_done by assumption. simpl.
      destruct (isinstance_StellarSignedTx resp), (truthy ops); reflexivity.
    + simpl. destruct e; reflexivity.
  - rewrite (Hreq 0) by lia.
    rewrite (send_operations_until j ops (after client [SignTx hdr]) o).
    + rewrite after_after. change ([SignTx hdr] ++ ?l) with (SignTx hdr :: l).
      destruct o as [resp|e].
      * destruct (isinstance_StellarSignedTx resp), (truthy (skipn (S j) ops));
          reflexivity.
      * destruct e; reflexivity.
    + lia.
    + intros i Hi. rewrite answer_after. apply Hreq. simpl; lia.
    + now rewrite answer_after.
    + assumption.
Qed.

(** The device asks once more than there are operations. *)
Lemma sign_tx_asked_too_often client tx ops address_n passphrase :
  (forall i, i <= List.length ops ->
             answer client i = Return StellarTxOpRequest) ->
  sign_tx client tx ops address_n passphrase
  = (mkStore
       (after client
          (SignTx (header tx ops address_n passphrase) :: map Op ops))
       (header tx ops address_n passphrase)
       [],
     Raise operations_exhausted).
Proof.
  intros Hreq.
  unfold sign_tx. fold (header tx ops address_n passphrase).
  set (hdr := header tx ops address_n passphrase).
  rewrite call_after, (Hreq 0) by lia.
  rewrite send_operations_all.
  - now rewrite after_after.
  - intros i Hi. rewrite answer_after. apply Hreq. simpl; lia.
Qed.

(** Either the device asks for an operation in each of the first [S n]
    round trips, or there is a first round trip among them in which it does
    something else. *)
Lemma first_other_answer (answers : nat -> result Response) n :
  (forall i, i <= n -> answers i = Return StellarTxOpRequest)
  \/ exists j, j <= n
       /\ (forall i, i < j -> answers i = Return StellarTxOpRequest)
       /\ answers j <> Return StellarTxOpRequest.
Proof.
  assert (Hdec : forall o : result Response,
             o = Return StellarTxOpRequest \/ o <> Return StellarTxOpRequest).
  { intros [[| |]|]; (now left) || (right; discriminate). }
  induction n as [|n IH].
  - destruct (Hdec (answers 0)) as [H0|H0].
    + left. intros i Hi. now replace i with 0 by lia.
    + right. exists 0. repeat split; auto. intros i Hi; lia.
  - destruct IH as [Hall|(j & Hj & Hbefore & Hat)].
    + destruct (Hdec (answers (S n))) as [Hn|Hn].
      * left. intros i Hi.
        destruct (Nat.eq_dec i (S n)) as [->|Hneq]; auto. apply Hall; lia.
      * right. exists (S n). repeat split; auto.
        intros i Hi. apply Hall; lia.
    + right. exists j. repeat split; auto.
Qed.

(** The two lemmas above cover every device: what [sign_tx] leaves behind
    is always the mutated header, a prefix of the operations sent after it,
    and the rest of them still in the queue. *)
Lemma sign_tx_store client tx ops address_n passphrase :
  exists k,
    k <= List.length ops
    /\ (forall i, i < k -> answer client i = Return StellarTxOpRequest)
    /\ fst (sign_tx client tx ops address_n passphrase)
       = mkStore
           (after client
              (SignTx (header tx ops address_n passphrase)
                 :: map Op (firstn k ops)))
           (header tx ops address_n passphrase)
           (skipn k ops).
Proof.
  destruct (first_other_answer (answer client) (List.length ops))
    as [Hall|(j & Hj & Hbefore & Hat)].
  - exists (List.length ops). split; [lia|]. split.
    + intros i Hi. apply Hall; lia.
    + rewrite sign_tx_asked_too_often by assumption.
      now rewrite firstn_all, skipn_all.
  - exists j. split; [assumption|]. split; [assumption|].
    now rewrite (sign_tx_stops j _ _ _ _ _ (answer client j)).
Qed.

Lemma truthy_skipn {A : Type} j (l : list A) :
  j < List.length l -> truthy (skipn j l) = true.
Proof.
  intros Hlt. destruct (skipn j l) eqn:E; [|reflexivity].
  apply (f_equal (@List.length A)) in E. rewrite length_skipn in E.
  simpl in E. lia.
Qed.

Lemma truthy_true_not_nil {A : Type} (l : list A) :
  truthy l = true -> l <> [].
Proof. destruct l; simpl; [discriminate | intros _; discriminate]. Qed.

(** The outcome of the last round trip after at least one request. *)
Lemma last_outcome_after client msgs :
  msgs <> [] ->
  last (map (fun x => Some (snd x)) (trace (after client msgs))) None
  = Some (answer client (pred (List.length msgs))).
Proof.
  intros Hne. destruct (exists_last Hne) as (front & msg & ->).
  unfold after, answer; cbn [trace].
  rewrite exchanges_app, !map_app, app_assoc. cbn [exchanges map snd].
  rewrite last_last, length_app. cbn [List.length].
  now rewrite Nat.add_1_r.
Qed.

Lemma header_then_length {A : Type} (x : A) j (l : list StellarOp)
  (f : StellarOp -> A) :
  j <= List.length l ->
  List.length (x :: map f (firstn j l)) = S j.
Proof.
  intros Hle. cbn [List.length]. rewrite length_map, length_firstn. lia.
Qed.

(* ------------------------------------------------------------------ *)
(** ** The signing exchange: results *)

(** C1: when the device asks for an operation exactly as many times as there
    are operations (after the header and after each operation but the last)
    and then answers with the signed transaction, [sign_tx] returns that
    signed transaction and the list of operations is empty on return. *)
Theorem sign_tx_returns_signature client0 tx0 ops address_n passphrase pk sig :
  (forall i, i < List.length ops ->
             answer client0 i = Return StellarTxOpRequest) ->
  answer client0 (List.length ops) = Return (StellarSignedTx pk sig) ->
  snd (sign_tx client0 tx0 ops address_n passphrase)
  = Return (StellarSignedTx pk sig)
  /\ operations (fst (sign_tx client0 tx0 ops address_n passphrase)) = [].
Proof.
  intros Hreq Hsigned.
  rewrite (sign_tx_stops (List.length ops) _ _ _ _ _
             (Return (StellarSignedTx pk sig)));
    [|lia|assumption|assumption|discriminate].
  cbn [fst snd operations negb isinstance_StellarSignedTx].
  rewrite skipn_all. split; reflexivity.
Qed.

Lemma sign_tx_returns_signature_witness :
  snd (sign_tx
         (connect (scripted [Return StellarTxOpRequest;
                             Return StellarTxOpRequest;
                             Return StellarTxOpRequest;
                             Return sample_signed]))
         sample_tx sample_operations sample_address_n
         DEFAULT_NETWORK_PASSPHRASE)
  = Return sample_signed
  /\ operations
       (fst (sign_tx
               (connect (scripted [Return StellarTxOpRequest;
                                   Return StellarTxOpRequest;
                                   Return StellarTxOpRequest;
                                   Return sample_signed]))
               sample_tx sample_operations sample_address_n
               DEFAULT_NETWORK_PASSPHRASE))
     = [].
Proof.
  apply sign_tx_returns_signature.
  - intros i Hi. simpl in Hi.
    destruct i as [|[|[|i]]]; [reflexivity | reflexivity | reflexivity | lia].
  - reflexivity.
Defined.

(** C2: when the device answers with the signed transaction while
    operations are still in the list (it asked [j] times, [j] smaller than
    the number of operations), [sign_tx] raises the premature-signature
    error; it returns nothing, so the signature does not reach the caller,
    and the unsent operations are still in the list. *)
Theorem sign_tx_premature_signature client0 tx0 ops address_n passphrase j
    pk sig :
  j < List.length ops ->
  (forall i, i < j -> answer client0 i = Return StellarTxOpRequest) ->
  answer client0 j = Return (StellarSignedTx pk sig) ->
  snd (sign_tx client0 tx0 ops address_n passphrase)
  = Raise premature_signature
  /\ (forall resp,
        snd (sign_tx client0 tx0 ops address_n passphrase) <> Return resp)
  /\ operations (fst (sign_tx client0 tx0 ops address_n passphrase))
     = skipn j ops
  /\ skipn j ops <> [].
Proof.
  intros Hlt Hreq Hsigned.
  rewrite (sign_tx_stops j _ _ _ _ _ (Return (StellarSignedTx pk sig)));
    [|lia|assumption|assumption|discriminate].
  cbn [fst snd operations negb isinstance_StellarSignedTx].
  pose proof (truthy_skipn j ops Hlt) as Hleft. rewrite Hleft.
  repeat split; try discriminate.
  now apply truthy_true_not_nil.
Qed.

Lemma sign_tx_premature_signature_witness :
  snd (sign_tx
         (connect (scripted [Return StellarTxOpRequest;
                             Return sample_signed]))
         sample_tx sample_operations sample_address_n
         DEFAULT_NETWORK_PASSPHRASE)
  = Raise premature_signature.
Proof.
  apply (sign_tx_premature_signature _ _ _ _ _ 1 [x01] [x02; x03]).
  - simpl; lia.
  - intros i Hi. destruct i as [|i]; [reflexivity | lia].
  - reflexivity.
Defined.

(** C3: when the device asks for yet another operation after all the
    operations have been sent, [sign_tx] raises the exhausted-operations
    error, which differs from the premature-signature error, from every
    protocol-violation error and from every transport error. *)
Theorem sign_tx_operations_exhausted client0 tx0 ops address_n passphrase :
  (forall i, i <= List.length ops ->
             answer client0 i = Return StellarTxOpRequest) ->
  snd (sign_tx client0 tx0 ops address_n passphrase)
  = Raise operations_exhausted
  /\ operations_exhausted <> premature_signature
  /\ (forall name, operations_exhausted <> protocol_violation name)
  /\ (forall msg, operations_exhausted <> TransportError msg).
Proof.
  intros Hreq. rewrite sign_tx_asked_too_often by assumption.
  repeat split; discriminate.
Qed.

Lemma sign_tx_operations_exhausted_witness :
  snd (sign_tx
         (connect (scripted [Return StellarTxOpRequest;
                             Return StellarTxOpRequest]))
         sample_tx [StellarBumpSequenceOp None 5%Z] sample_address_n
         DEFAULT_NETWORK_PASSPHRASE)
  = Raise operations_exhausted.
Proof.
  apply sign_tx_operations_exhausted.
  intros i Hi. simpl in Hi.
  destruct i as [|[|i]]; [reflexivity | reflexivity | lia].
Defined.

(** C4: whenever the device's answer is neither a request for the next
    operation nor the signed transaction, to the header ([j = 0]) or to any
    operation, [sign_tx] raises the protocol-violation error naming the
    class of the answer, and nothing was sent after the request that got
    this answer. *)
Theorem sign_tx_unexpected_message client0 tx0 ops address_n passphrase j
    resp :
  j <= List.length ops ->
  (forall i, i < j -> answer client0 i = Return StellarTxOpRequest) ->
  answer client0 j = Return resp ->
  isinstance_StellarTxOpRequest resp = false ->
  isinstance_StellarSignedTx resp = false ->
  snd (sign_tx client0 tx0 ops address_n passphrase)
  = Raise (protocol_violation (class_name resp))
  /\ sent (client (fst (sign_tx client0 tx0 ops address_n passphrase)))
     = sent client0
         ++ SignTx (header tx0 ops address_n passphrase)
              :: map Op (firstn j ops)
  /\ List.length
       (trace (client (fst (sign_tx client0 tx0 ops address_n passphrase))))
     = List.length (trace client0) + S j.
Proof.
  intros Hle Hreq Hresp Hnot_request Hnot_signed.
  rewrite (sign_tx_stops j _ _ _ _ _ (Return resp));
    [|assumption|assumption|assumption|].
  - cbn [fst snd client]. rewrite Hnot_signed. cbn [negb].
    rewrite sent_after, trace_after_length, header_then_length by assumption.
    repeat split.
  - intros H; injection H as ->; discriminate.
Qed.

Lemma sign_tx_unexpected_message_witness :
  snd (sign_tx
         (connect (scripted [Return StellarTxOpRequest;
                             Return (OtherMessage "Features")]))
         sample_tx sample_operations sample_address_n
         DEFAULT_NETWORK_PASSPHRASE)
  = Raise (protocol_violation "Features").
Proof.
  apply (sign_tx_unexpected_message _ _ _ _ _ 1 (OtherMessage "Features")).
  - simpl; lia.
  - intros i Hi. destruct i as [|i]; [reflexivity | lia].
  - reflexivity.
  - reflexivity.
  - reflexivity.
Defined.

(* ------------------------------------------------------------------ *)
(** ** The signing exchange: what goes over the transport *)

(** C5: for every list of operations and every device, what [sign_tx]
    passes to the transport after the header is a prefix of the supplied
    operations in their original order, the list is left holding exactly the
    operations after that prefix, and each of the operations sent was popped
    after the device had asked for the next operation. *)
Theorem sign_tx_sends_prefix_in_order client0 tx0 ops address_n passphrase :
  exists k,
    k <= List.length ops
    /\ sent (client (fst (sign_tx client0 tx0 ops address_n passphrase)))
       = sent client0
           ++ SignTx (header tx0 ops address_n passphrase)
                :: map Op (firstn k ops)
    /\ operations (fst (sign_tx client0 tx0 ops address_n passphrase))
       = skipn k ops
    /\ (forall i, i < k -> answer client0 i = Return StellarTxOpRequest).
Proof.
  destruct (sign_tx_store client0 tx0 ops address_n passphrase)
    as (k & Hle & Hreq & ->).
  exists k. cbn [client operations]. rewrite sent_after. auto.
Qed.

(** C7: over any run the number of round trips on the transport is one, for
    the header, plus the number of operations taken from the list, and a
    request is only sent after the round trip before it has handed back the
    device's answer: no round trip is made again after a failure. *)
Theorem sign_tx_round_trips client0 tx0 ops address_n passphrase :
  List.length
    (trace (client (fst (sign_tx client0 tx0 ops address_n passphrase))))
  = List.length (trace client0) + 1
    + (List.length ops
       - List.length
           (operations (fst (sign_tx client0 tx0 ops address_n passphrase))))
  /\ (forall i,
        List.length (trace client0) <= i ->
        S i < List.length
                (trace (client
                          (fst (sign_tx client0 tx0 ops address_n
                                  passphrase)))) ->
        exists msg,
          nth_error
            (trace (client
                      (fst (sign_tx client0 tx0 ops address_n passphrase))))
            i
          = Some (msg, Return StellarTxOpRequest)).
Proof.
  destruct (sign_tx_store client0 tx0 ops address_n passphrase)
    as (k & Hle & Hreq & ->).
  cbn [client operations]. rewrite trace_after_length.
  rewrite header_then_length by assumption. rewrite length_skipn.
  split; [lia|].
  intros i Hfrom Hbefore.
  set (msgs := SignTx (header tx0 ops address_n passphrase)
                 :: map Op (firstn k ops)).
  assert (Hlen : List.length msgs = S k)
    by (now apply header_then_length).
  set (i' := i - List.length (trace client0)).
  assert (Hi' : i' < k) by (unfold i'; lia).
  destruct (nth_error msgs i') as [msg|] eqn:Hmsg.
  - exists msg. unfold after; cbn [trace].
    rewrite nth_error_app2 by assumption. fold i'. fold msgs.
    rewrite (exchanges_nth _ _ _ _ _ Hmsg).
    f_equal. f_equal. apply Hreq. assumption.
  - apply nth_error_None in Hmsg. lia.
Qed.

(** Any exception raised by [client.call] passes through [sign_tx]
    unchanged, except an [IndexError] raised while an operation is being
    sent, which the handler around the loop replaces. *)
Lemma sign_tx_propagates client0 tx0 ops address_n passphrase j e :
  j <= List.length ops ->
  (forall i, i < j -> answer client0 i = Return StellarTxOpRequest) ->
  answer client0 j = Raise e ->
  j = 0 \/ (forall msg, e <> IndexError msg) ->
  snd (sign_tx client0 tx0 ops address_n passphrase) = Raise e.
Proof.
  intros Hle Hreq Hfail Hclass.
  rewrite (sign_tx_stops j _ _ _ _ _ (Raise e));
    [|assumption|assumption|assumption|discriminate].
  cbn [snd]. destruct j as [|j]; [reflexivity|].
  destruct Hclass as [Hj|Hclass]; [discriminate|].
  destruct e; try reflexivity. now elim (Hclass msg).
Qed.

(** C8: when a round trip fails with a transport error, for the header
    ([j = 0]) or for any operation, [sign_tx] raises that very error, and
    the failed round trip is the last one: the requests passed to the
    transport are the header and the [j] operations up to the failure. *)
Theorem sign_tx_transport_error client0 tx0 ops address_n passphrase j msg :
  j <= List.length ops ->
  (forall i, i < j -> answer client0 i = Return StellarTxOpRequest) ->
  answer client0 j = Raise (TransportError msg) ->
  snd (sign_tx client0 tx0 ops address_n passphrase)
  = Raise (TransportError msg)
  /\ sent (client (fst (sign_tx client0 tx0 ops address_n passphrase)))
     = sent client0
         ++ SignTx (header tx0 ops address_n passphrase)
              :: map Op (firstn j ops)
  /\ List.length
       (trace (client (fst (sign_tx client0 tx0 ops address_n passphrase))))
     = List.length (trace client0) + S j.
Proof.
  intros Hle Hreq Hfail.
  rewrite (sign_tx_stops j _ _ _ _ _ (Raise (TransportError msg)));
    [|assumption|assumption|assumption|discriminate].
  cbn [fst snd client].
  rewrite sent_after, trace_after_length, header_then_length by assumption.
  destruct j; repeat split.
Qed.

Lemma sign_tx_transport_error_witness :
  snd (sign_tx
         (connect (scripted [Return StellarTxOpRequest;
                             Return StellarTxOpRequest;
                             Raise (TransportError "device disconnected")]))
         sample_tx sample_operations sample_address_n
         DEFAULT_NETWORK_PASSPHRASE)
  = Raise (TransportError "device disconnected").
Proof.
  apply (sign_tx_transport_error _ _ _ _ _ 2).
  - simpl; lia.
  - intros i Hi. destruct i as [|[|i]]; [reflexivity | reflexivity | lia].
  - reflexivity.
Defined.

(** C9: [sign_tx] overwrites [network_passphrase], [address_n] and
    [num_operations] of the caller's header, the last with the length of
    the supplied list whatever it held before, leaves the other attributes
    as they were, and the header it sends first already carries the new
    values. *)
Theorem sign_tx_mutates_header client0 tx0 ops address_n passphrase :
  let store := fst (sign_tx client0 tx0 ops address_n passphrase) in
  messages.network_passphrase (tx store) = Some passphrase
  /\ messages.address_n (tx store) = Some address_n
  /\ messages.num_operations (tx store) = Some (Z.of_nat (List.length ops))
  /\ messages.source_account (tx store) = messages.source_account tx0
  /\ messages.fee (tx store) = messages.fee tx0
  /\ messages.sequence_number (tx store) = messages.sequence_number tx0
  /\ messages.timebounds_start (tx store) = messages.timebounds_start tx0
  /\ messages.timebounds_end (tx store) = messages.timebounds_end tx0
  /\ messages.memo_type (tx store) = messages.memo_type tx0
  /\ messages.memo_text (tx store) = messages.memo_text tx0
  /\ messages.memo_id (tx store) = messages.memo_id tx0
  /\ messages.memo_hash (tx store) = messages.memo_hash tx0
  /\ nth_error (sent (client store)) (List.length (sent client0))
     = Some (SignTx (tx store)).
Proof.
  destruct (sign_tx_store client0 tx0 ops address_n passphrase)
    as (k & Hle & Hreq & Hstore).
  cbv zeta. rewrite Hstore. cbn [client tx]. rewrite sent_after.
  rewrite nth_error_app2, Nat.sub_diag by lia.
  repeat split.
Qed.

(* ------------------------------------------------------------------ *)
(** ** The signing exchange: failures *)

(** C6: under the transport contract every failure of [sign_tx] is an
    exception whose class and message tell which invariant broke: the kind
    read off the exception is the kind read off the last round trip and the
    list of operations.  The exhausted-operations, premature-signature,
    protocol-violation and transport errors are told apart by
    [failure_kind]. *)
Theorem sign_tx_failure_kind client0 tx0 ops address_n passphrase e :
  transport_contract client0 ->
  snd (sign_tx client0 tx0 ops address_n passphrase) = Raise e ->
  failure_kind e
  = broken_invariant (fst (sign_tx client0 tx0 ops address_n passphrase))
  /\ failure_kind e <> None
  /\ failure_kind operations_exhausted = Some OperationsExhausted
  /\ failure_kind premature_signature = Some PrematureSignature
  /\ (forall name, failure_kind (protocol_violation name)
                   = Some ProtocolViolation)
  /\ (forall msg, failure_kind (TransportError msg) = Some TransportFault).
Proof.
  intros Hcontract Hraise.
  assert (Hkinds :
            failure_kind operations_exhausted = Some OperationsExhausted
            /\ failure_kind premature_signature = Some PrematureSignature
            /\ (forall name, failure_kind (protocol_violation name)
                             = Some ProtocolViolation)
            /\ (forall msg, failure_kind (TransportError msg)
                            = Some TransportFault))
    by (repeat split; intros name; destruct name; reflexivity).
  destruct Hkinds as (Hexhausted & Hpremature & Hviolation & Htransport).
  rewrite <- and_assoc. split; [|repeat split; assumption].
  destruct (first_other_answer (answer client0) (List.length ops))
    as [Hall|(j & Hj & Hbefore & Hat)].
  - rewrite sign_tx_asked_too_often in Hraise |- * by assumption.
    cbn [fst snd] in *. injection Hraise as <-.
    unfold broken_invariant; cbn [client operations truthy].
    rewrite last_outcome_after by discriminate.
    cbn [List.length pred]. rewrite length_map, Hall by lia.
    rewrite Hexhausted. split; [reflexivity | discriminate].
  - rewrite (sign_tx_stops j _ _ _ _ _ (answer client0 j))
      in Hraise |- * by (assumption || reflexivity).
    cbn [fst snd] in *.
    unfold broken_invariant; cbn [client operations].
    rewrite last_outcome_after by discriminate.
    rewrite header_then_length by assumption. cbn [pred].
    destruct (answer client0 j) as [resp|e0] eqn:Hanswer.
    + destruct resp as [|pk sig|name].
      * now elim Hat.
      * cbn [isinstance_StellarSignedTx negb] in Hraise.
        destruct (truthy (skipn j ops)); [|discriminate].
        injection Hraise as <-. rewrite Hpremature.
        split; [reflexivity | discriminate].
      * cbn [isinstance_StellarSignedTx negb class_name] in Hraise.
        injection Hraise as <-. rewrite Hviolation.
        split; [reflexivity | discriminate].
    + destruct (Hcontract j e0 Hanswer) as (msg & ->).
      assert (He : e = TransportError msg)
        by (destruct j; now injection Hraise as <-).
      subst e. rewrite Htransport. split; [reflexivity | discriminate].
Qed.

Lemma sign_tx_failure_kind_witness :
  failure_kind premature_signature
  = broken_invariant
      (fst (sign_tx
              (connect (scripted [Return StellarTxOpRequest;
                                  Return sample_signed]))
              sample_tx sample_operations sample_address_n
              DEFAULT_NETWORK_PASSPHRASE)).
Proof.
  apply (sign_tx_failure_kind
           (connect (scripted [Return StellarTxOpRequest;
                               Return sample_signed]))
           sample_tx sample_operations sample_address_n
           DEFAULT_NETWORK_PASSPHRASE premature_signature).
  - intros i e H. unfold answer, connect, scripted in H. simpl in H.
    destruct i as [|[|[|i]]]; try discriminate;
      injection H as <-; eexists; reflexivity.
  - reflexivity.
Defined.

(** Outside the transport contract the kind can be wrong: an [IndexError]
    raised inside [client.call] while an operation is being sent is caught
    by the handler around the loop and reported as exhausted operations,
    although operations are left. *)
Example index_error_inside_call_reads_as_exhausted :
  let run :=
    sign_tx
      (connect (scripted [Return StellarTxOpRequest;
                          Raise (IndexError "list index out of range")]))
      sample_tx sample_operations sample_address_n
      DEFAULT_NETWORK_PASSPHRASE in
  snd run = Raise operations_exhausted
  /\ List.length (operations (fst run)) = 2
  /\ broken_invariant (fst run) = Some TransportFault.
Proof. repeat split. Qed.

(** The header is sent outside the handler: there an [IndexError] passes
    through unchanged. *)
Example index_error_on_header_is_propagated :
  snd (sign_tx
         (connect (scripted [Raise (IndexError "list index out of range")]))
         sample_tx sample_operations sample_address_n
         DEFAULT_NETWORK_PASSPHRASE)
  = Raise (IndexError "list index out of range").
Proof. reflexivity. Qed.

(* ------------------------------------------------------------------ *)
(** ** Scenarios *)

(** No operations: the device signs right after the header. *)
Example scenario_no_operations :
  sign_tx (connect (scripted [Return sample_signed])) sample_tx []
    sample_address_n DEFAULT_NETWORK_PASSPHRASE
  = (mkStore
       (mkClient (scripted [Return sample_signed])
          [(SignTx (header sample_tx [] sample_address_n
                      DEFAULT_NETWORK_PASSPHRASE),
            Return sample_signed)])
       (header sample_tx [] sample_address_n DEFAULT_NETWORK_PASSPHRASE)
       [],
     Return sample_signed).
Proof. reflexivity. Qed.

(** Three operations: all three go out in their original order. *)
Example scenario_three_operations :
  let run :=
    sign_tx
      (connect (scripted [Return StellarTxOpRequest;
                          Return StellarTxOpRequest;
                          Return StellarTxOpRequest;
                          Return sample_signed]))
      sample_tx sample_operations sample_address_n
      DEFAULT_NETWORK_PASSPHRASE in
  snd run = Return sample_signed
  /\ sent (client (fst run))
     = SignTx (header sample_tx sample_operations sample_address_n
                 DEFAULT_NETWORK_PASSPHRASE)
         :: map Op sample_operations
  /\ operations (fst run) = [].
Proof. repeat split. Qed.

(** One operation and two requests: the second request finds the list
    empty. *)
Example scenario_mismatch :
  let run :=
    sign_tx
      (connect (scripted [Return StellarTxOpRequest;
                          Return StellarTxOpRequest]))
      sample_tx [StellarBumpSequenceOp None 5%Z] sample_address_n
      DEFAULT_NETWORK_PASSPHRASE in
  snd run = Raise operations_exhausted
  /\ List.length (trace (client (fst run))) = 2.
Proof. repeat split. Qed.

(** An unexpected answer to the header itself. *)
Example scenario_unexpected_first_response :
  let run :=
    sign_tx (connect (scripted [Return (OtherMessage "Features")]))
      sample_tx sample_operations sample_address_n
      DEFAULT_NETWORK_PASSPHRASE in
  snd run = Raise (protocol_violation "Features")
  /\ List.length (trace (client (fst run))) = 1
  /\ operations (fst run) = sample_operations.
Proof. repeat split. Qed.

(* ------------------------------------------------------------------ *)
(** ** from_envelope *)

Lemma list_comprehension_Forall2 {A B : Type} (f : A -> result B) xs :
  forall ys,
    list_comprehension f xs = Return ys ->
    Forall2 (fun x y => f x = Return y) xs ys.
Proof.
  induction xs as [|x xs IH]; intros ys H; simpl in H.
  - injection H as <-. constructor.
  - destruct (f x) as [y|] eqn:Hx; simpl in H; [|discriminate].
    destruct (list_comprehension f xs) as [ys'|] eqn:Hxs; simpl in H;
      [|discriminate].
    injection H as <-. constructor; auto.
Qed.

(** The comprehension is total where the conversion is. *)
Lemma list_comprehension_total {A B : Type} (f : A -> result B) xs ys :
  Forall2 (fun x y => f x = Return y) xs ys ->
  list_comprehension f xs = Return ys.
Proof.
  induction 1 as [|x y xs ys Hx _ IH]; simpl; [reflexivity|].
  now rewrite Hx, IH.
Qed.

Example from_envelope_sample :
  from_envelope sample_envelope
  = Return (sample_converted_tx, sample_converted_operations).
Proof. reflexivity. Qed.

(** C10: for every envelope that [from_envelope] accepts, the header it
    returns carries in [num_operations] the length of the list of
    operations it returns, and that list holds the conversions of the
    envelope's operations, one for each and in the envelope's order. *)
Theorem from_envelope_consistent {sdk : StellarSdk} envelope header0 ops :
  from_envelope envelope = Return (header0, ops) ->
  messages.num_operations header0 = Some (Z.of_nat (List.length ops))
  /\ Forall2 (fun op msg => _read_operation op = Return msg)
       (stellar_sdk.operations (stellar_sdk.transaction envelope)) ops.
Proof.
  unfold from_envelope.
  destruct HAVE_STELLAR_SDK; cbn [negb]; [|discriminate].
  cbv zeta.
  match goal with
  | |- bind ?memo _ = _ -> _ => destruct memo as [tx1|]; [|discriminate]
  end.
  cbn [bind].
  destruct (list_comprehension _read_operation
              (stellar_sdk.operations (stellar_sdk.transaction envelope)))
    as [converted|] eqn:Hconverted; [|discriminate].
  cbn [bind]. intros H; injection H as <- <-.
  apply list_comprehension_Forall2 in Hconverted.
  split; [|assumption].
  cbn [messages.num_operations set_num_operations].
  now rewrite (Forall2_length Hconverted).
Qed.

Lemma from_envelope_consistent_witness :
  messages.num_operations sample_converted_tx
  = Some (Z.of_nat (List.length sample_converted_operations))
  /\ Forall2 (fun op msg => _read_operation op = Return msg)
       (stellar_sdk.operations (stellar_sdk.transaction sample_envelope))
       sample_converted_operations.
Proof.
  apply (from_envelope_consistent sample_envelope).
  reflexivity.
Defined.

(* ------------------------------------------------------------------ *)
(** ** More on the signing exchange *)

Lemma truthy_false_nil {A : Type} (l : list A) : truthy l = false -> l = [].
Proof. destruct l; simpl; [reflexivity | discriminate]. Qed.

Lemma skipn_nil_all {A : Type} j (l : list A) :
  j <= List.length l -> skipn j l = [] -> j = List.length l.
Proof.
  intros Hle H. apply (f_equal (@List.length A)) in H.
  rewrite length_skipn in H. simpl in H. lia.
Qed.

Lemma exchanges_ext device1 device2 i msgs :
  (forall k, k < List.length msgs -> device1 (i + k) = device2 (i + k)) ->
  exchanges device1 i msgs = exchanges device2 i msgs.
Proof.
  revert i; induction msgs as [|msg msgs IH]; intros i H; simpl;
    [reflexivity|].
  f_equal.
  - f_equal. specialize (H 0). rewrite Nat.add_0_r in H. apply H. simpl; lia.
  - apply IH. intros k Hk. rewrite Nat.add_succ_comm. apply H. simpl; lia.
Qed.

(** X1: [sign_tx] returns only a signed transaction, and only after the
    device has asked for every operation and answered the last one with
    that signed transaction: on return all operations have been sent, in
    order, and the list is empty. *)
Theorem sign_tx_return_sound client0 tx0 ops address_n passphrase resp :
  snd (sign_tx client0 tx0 ops address_n passphrase) = Return resp ->
  isinstance_StellarSignedTx resp = true
  /\ (forall i, i < List.length ops ->
                answer client0 i = Return StellarTxOpRequest)
  /\ answer client0 (List.length ops) = Return resp
  /\ operations (fst (sign_tx client0 tx0 ops address_n passphrase)) = []
  /\ sent (client (fst (sign_tx client0 tx0 ops address_n passphrase)))
     = sent client0
         ++ SignTx (header tx0 ops address_n passphrase) :: map Op ops.
Proof.
  intros Hret.
  destruct (first_other_answer (answer client0) (List.length ops))
    as [Hall|(j & Hj & Hbefore & Hat)].
  - rewrite sign_tx_asked_too_often in Hret by assumption. discriminate.
  - rewrite (sign_tx_stops j _ _ _ _ _ (answer client0 j))
      in Hret |- * by (assumption || reflexivity).
    cbn [fst snd client operations] in *.
    destruct (answer client0 j) as [r|e] eqn:Hanswer.
    + destruct (isinstance_StellarSignedTx r) eqn:Hsigned;
        cbn [negb] in Hret; [|discriminate].
      destruct (truthy (skipn j ops)) eqn:Hleft; [discriminate|].
      injection Hret as <-.
      apply truthy_false_nil in Hleft.
      pose proof (skipn_nil_all j ops Hj Hleft) as ->.
      rewrite sent_after, firstn_all, skipn_all. auto.
    + destruct j, e; discriminate.
Qed.

Lemma sign_tx_return_sound_witness :
  answer
    (connect (scripted [Return StellarTxOpRequest;
                        Return StellarTxOpRequest;
                        Return StellarTxOpRequest;
                        Return sample_signed]))
    (List.length sample_operations)
  = Return sample_signed.
Proof.
  apply (sign_tx_return_sound _ sample_tx sample_operations sample_address_n
           DEFAULT_NETWORK_PASSPHRASE sample_signed).
  reflexivity.
Defined.

(** X2: an [IndexError] that [client.call] raises while an operation is
    being sent does not reach the caller: the handler around the loop turns
    it into the exhausted-operations error, although the operations after
    the one being sent are still in the list. *)
Theorem sign_tx_index_error_masked client0 tx0 ops address_n passphrase j
    msg :
  S j <= List.length ops ->
  (forall i, i < S j -> answer client0 i = Return StellarTxOpRequest) ->
  answer client0 (S j) = Raise (IndexError msg) ->
  snd (sign_tx client0 tx0 ops address_n passphrase)
  = Raise operations_exhausted
  /\ operations (fst (sign_tx client0 tx0 ops address_n passphrase))
     = skipn (S j) ops
  /\ List.length
       (operations (fst (sign_tx client0 tx0 ops address_n passphrase)))
     = List.length ops - S j.
Proof.
  intros Hle Hreq Hfail.
  rewrite (sign_tx_stops (S j) _ _ _ _ _ (Raise (IndexError msg)));
    [|assumption|assumption|assumption|discriminate].
  cbn [fst snd operations]. rewrite length_skipn. auto.
Qed.

Lemma sign_tx_index_error_masked_witness :
  snd (sign_tx
         (connect (scripted [Return StellarTxOpRequest;
                             Raise (IndexError "list index out of range")]))
         sample_tx sample_operations sample_address_n
         DEFAULT_NETWORK_PASSPHRASE)
  = Raise operations_exhausted.
Proof.
  apply (sign_tx_index_error_masked _ _ _ _ _ 0 "list index out of range").
  - simpl; lia.
  - intros i Hi. destruct i as [|i]; [reflexivity | lia].
  - reflexivity.
Defined.

(** X3: when the round trip for the header raises, whatever the class of
    the exception, [sign_tx] raises that exception, no operation has been
    popped and the header is the only request that was made. *)
Theorem sign_tx_header_failure client0 tx0 ops address_n passphrase e :
  answer client0 0 = Raise e ->
  snd (sign_tx client0 tx0 ops address_n passphrase) = Raise e
  /\ operations (fst (sign_tx client0 tx0 ops address_n passphrase)) = ops
  /\ sent (client (fst (sign_tx client0 tx0 ops address_n passphrase)))
     = sent client0 ++ [SignTx (header tx0 ops address_n passphrase)].
Proof.
  intros Hfail.
  rewrite (sign_tx_stops 0 _ _ _ _ _ (Raise e));
    [|lia|intros i Hi; lia|assumption|discriminate].
  cbn [fst snd client operations firstn skipn map]. rewrite sent_after.
  auto.
Qed.

Lemma sign_tx_header_failure_witness :
  operations
    (fst (sign_tx
            (connect (scripted [Raise (IndexError "list index out of range")]))
            sample_tx sample_operations sample_address_n
            DEFAULT_NETWORK_PASSPHRASE))
  = sample_operations.
Proof.
  apply (sign_tx_header_failure _ _ _ _ _
           (IndexError "list index out of range")).
  reflexivity.
Defined.

(** X4: what the header held in [network_passphrase], [address_n] and
    [num_operations] before the call has no influence: two headers that
    agree on the other attributes give the same run. *)
Theorem sign_tx_ignores_overwritten_fields client0 tx1 tx2 ops address_n
    passphrase :
  messages.source_account tx1 = messages.source_account tx2 ->
  messages.fee tx1 = messages.fee tx2 ->
  messages.sequence_number tx1 = messages.sequence_number tx2 ->
  messages.timebounds_start tx1 = messages.timebounds_start tx2 ->
  messages.timebounds_end tx1 = messages.timebounds_end tx2 ->
  messages.memo_type tx1 = messages.memo_type tx2 ->
  messages.memo_text tx1 = messages.memo_text tx2 ->
  messages.memo_id tx1 = messages.memo_id tx2 ->
  messages.memo_hash tx1 = messages.memo_hash tx2 ->
  sign_tx client0 tx1 ops address_n passphrase
  = sign_tx client0 tx2 ops address_n passphrase.
Proof.
  intros Hsource Hfee Hseq Hstart Hend Htype Htext Hid Hhash.
  assert (Hheader : header tx1 ops address_n passphrase
                    = header tx2 ops address_n passphrase).
  { destruct tx1, tx2; cbn in *. now subst. }
  unfold sign_tx.
  fold (header tx1 ops address_n passphrase).
  fold (header tx2 ops address_n passphrase).
  now rewrite Hheader.
Qed.

Lemma sign_tx_ignores_overwritten_fields_witness :
  sign_tx (connect (scripted [Return sample_signed]))
    sample_tx sample_operations sample_address_n DEFAULT_NETWORK_PASSPHRASE
  = sign_tx (connect (scripted [Return sample_signed]))
      (set_num_operations
         (set_address_n (set_network_passphrase sample_tx "Test") [1%Z])
         0%Z)
      sample_operations sample_address_n DEFAULT_NETWORK_PASSPHRASE.
Proof.
  apply sign_tx_ignores_overwritten_fields; reflexivity.
Defined.

(** X5: [sign_tx] never looks past the answer number N, for N operations:
    with the same earlier round trips, two devices that agree on the
    answers 0 to N give the same result, the same round trips, the same
    header and the same list of operations left. *)
Theorem sign_tx_bounded_lookahead client1 client2 tx0 ops address_n
    passphrase :
  trace client1 = trace client2 ->
  (forall i, i <= List.length ops -> answer client1 i = answer client2 i) ->
  snd (sign_tx client1 tx0 ops address_n passphrase)
  = snd (sign_tx client2 tx0 ops address_n passphrase)
  /\ trace (client (fst (sign_tx client1 tx0 ops address_n passphrase)))
     = trace (client (fst (sign_tx client2 tx0 ops address_n passphrase)))
  /\ tx (fst (sign_tx client1 tx0 ops address_n passphrase))
     = tx (fst (sign_tx client2 tx0 ops address_n passphrase))
  /\ operations (fst (sign_tx client1 tx0 ops address_n passphrase))
     = operations (fst (sign_tx client2 tx0 ops address_n passphrase)).
Proof.
  intros Htrace Hagree.
  assert (Hafter : forall msgs,
             List.length msgs <= S (List.length ops) ->
             trace (after client1 msgs) = trace (after client2 msgs)).
  { intros msgs Hlen. unfold after; cbn [trace]. rewrite Htrace. f_equal.
    apply exchanges_ext. intros k Hk.
    specialize (Hagree k). unfold answer in Hagree. rewrite Htrace in Hagree.
    apply Hagree. lia. }
  destruct (first_other_answer (answer client1) (List.length ops))
    as [Hall|(j & Hj & Hbefore & Hat)].
  - rewrite !sign_tx_asked_too_often;
      [|intros i Hi; rewrite <- Hagree by assumption; now apply Hall
       |assumption].
    cbn [fst snd client tx operations]. repeat split.
    apply Hafter. cbn [List.length]. rewrite length_map. lia.
  - rewrite (sign_tx_stops j client1 _ _ _ _ (answer client1 j))
      by (assumption || reflexivity).
    rewrite (sign_tx_stops j client2 _ _ _ _ (answer client1 j));
      [|assumption
       |intros i Hi; rewrite <- Hagree by lia; now apply Hbefore
       |now rewrite Hagree by assumption
       |assumption].
    cbn [fst snd client tx operations]. repeat split.
    apply Hafter. rewrite header_then_length by assumption. lia.
Qed.

Lemma sign_tx_bounded_lookahead_witness :
  snd (sign_tx
         (connect (scripted [Return StellarTxOpRequest;
                             Return sample_signed;
                             Return StellarTxOpRequest]))
         sample_tx [StellarBumpSequenceOp None 5%Z] sample_address_n
         DEFAULT_NETWORK_PASSPHRASE)
  = snd (sign_tx
           (connect (scripted [Return StellarTxOpRequest;
                               Return sample_signed;
                               Raise (TransportError "device disconnected")]))
           sample_tx [StellarBumpSequenceOp None 5%Z] sample_address_n
           DEFAULT_NETWORK_PASSPHRASE).
Proof.
  apply sign_tx_bounded_lookahead.
  - reflexivity.
  - intros i Hi. simpl in Hi.
    destruct i as [|[|i]]; [reflexivity | reflexivity | lia].
Defined.

(* ------------------------------------------------------------------ *)
(** ** More on the converter *)

(** Splits a hypothesis [x <- c ;; k = Return r] into [c = Return a] and
    what is left of the computation. *)
Ltac bind_inversion H :=
  repeat match type of H with
         | bind ?c _ = Return _ =>
             let E := fresh "E" in
             destruct c eqn:E; cbn [bind] in H; [|discriminate H]
         end.

Lemma Forall2_In_left {A B : Type} (R : A -> B -> Prop) xs ys x :
  Forall2 R xs ys -> In x xs -> exists y, R x y.
Proof.
  induction 1 as [|x' y' xs ys Hxy _ IH]; intros Hin; [now elim Hin|].
  destruct Hin as [->|Hin]; [now exists y' | auto].
Qed.

(** The comprehension raises the exception of the first element that does
    not convert. *)
Lemma list_comprehension_first_error {A B : Type} (f : A -> result B)
    good ys bad rest e :
  Forall2 (fun x y => f x = Return y) good ys ->
  f bad = Raise e ->
  list_comprehension f (good ++ bad :: rest) = Raise e.
Proof.
  intros Hgood Hbad.
  induction Hgood as [|x y xs ys' Hx _ IH]; simpl.
  - now rewrite Hbad.
  - now rewrite Hx, IH.
Qed.

(** X6: an asset that [_read_asset] accepts is either native, and then the
    message has type 0 and neither code nor issuer, or it is not, and then
    the message has type 1 or 2, as [guess_asset_type] says, and carries the
    asset's code and issuer. *)
Theorem _read_asset_result {sdk : StellarSdk} asset msg :
  _read_asset asset = Return msg ->
  (is_native asset = true
   /\ msg = mkStellarAssetType ASSET_TYPE_NATIVE None None)
  \/ (is_native asset = false
      /\ messages.code msg = Some (stellar_sdk.code asset)
      /\ messages.issuer msg = stellar_sdk.issuer asset
      /\ ((guess_asset_type asset = "credit_alphanum4"
           /\ messages.type msg = ASSET_TYPE_ALPHA4)
          \/ (guess_asset_type asset = "credit_alphanum12"
              /\ messages.type msg = ASSET_TYPE_ALPHA12))).
Proof.
  unfold _read_asset. intros H.
  destruct (is_native asset); [left; now injection H as <-|right].
  destruct (String.eqb_spec (guess_asset_type asset) "credit_alphanum4")
    as [H4|_].
  - injection H as <-. cbn. tauto.
  - destruct (String.eqb_spec (guess_asset_type asset) "credit_alphanum12")
      as [H12|_]; [|discriminate].
    injection H as <-. cbn. tauto.
Qed.

Lemma _read_asset_result_witness :
  (is_native (stellar_sdk.mkAsset "USD" (Some "GCCC")) = true
   /\ mkStellarAssetType ASSET_TYPE_ALPHA4 (Some "USD") (Some "GCCC")
      = mkStellarAssetType ASSET_TYPE_NATIVE None None)
  \/ (is_native (stellar_sdk.mkAsset "USD" (Some "GCCC")) = false
      /\ Some "USD" = Some "USD"
      /\ Some "GCCC" = Some "GCCC"
      /\ ((guess_asset_type (stellar_sdk.mkAsset "USD" (Some "GCCC"))
           = "credit_alphanum4"
           /\ ASSET_TYPE_ALPHA4 = ASSET_TYPE_ALPHA4)
          \/ (guess_asset_type (stellar_sdk.mkAsset "USD" (Some "GCCC"))
              = "credit_alphanum12"
              /\ ASSET_TYPE_ALPHA4 = ASSET_TYPE_ALPHA12))).
Proof.
  apply (_read_asset_result (stellar_sdk.mkAsset "USD" (Some "GCCC"))
           (mkStellarAssetType ASSET_TYPE_ALPHA4 (Some "USD") (Some "GCCC"))).
  reflexivity.
Defined.


(** X8: every message that [_read_operation] builds carries as
    [source_account] the account id of the operation's source, and [None]
    when the operation has no source. *)
Theorem _read_operation_source_account {sdk : StellarSdk} op msg :
  _read_operation op = Return msg ->
  StellarOp_source_account msg = read_source (Operation_source op).
Proof.
  intros H.
  destruct op; cbn [_read_operation] in H; bind_inversion H;
    try (injection H as <-; reflexivity); try discriminate.
  - destruct signer as [s|]; bind_inversion H; now injection H as <-.
  - destruct authorize; try discriminate; now injection H as <-.
Qed.

Lemma _read_operation_source_account_witness :
  StellarOp_source_account (StellarBumpSequenceOp (Some "GDDD") 9%Z)
  = read_source
      (Operation_source
         (stellar_sdk.BumpSequence
            (Some (stellar_sdk.mkMuxedAccount "GDDD")) 9%Z)).
Proof.
  apply (_read_operation_source_account
           (stellar_sdk.BumpSequence
              (Some (stellar_sdk.mkMuxedAccount "GDDD")) 9%Z)).
  reflexivity.
Defined.

(** X9: an [AllowTrust] operation is converted only when its flag is
    [UNAUTHORIZED_FLAG] or [AUTHORIZED_FLAG]; the message then has
    [is_authorized] 0 or 1, and its [asset_type] is 1 for a code of at most
    four characters and 2 for a longer one, never the native type. *)
Theorem _read_operation_allow_trust {sdk : StellarSdk} source trustor
    asset_code authorize msg :
  _read_operation
    (stellar_sdk.AllowTrust source trustor asset_code authorize)
  = Return msg ->
  exists asset_type is_authorized,
    msg = StellarAllowTrustOp (read_source source) trustor asset_type
            asset_code is_authorized
    /\ authorize <> stellar_sdk.AUTHORIZED_TO_MAINTAIN_LIABILITIES_FLAG
    /\ (is_authorized = 0 \/ is_authorized = 1)%Z
    /\ ((String.length asset_code <= 4 /\ asset_type = ASSET_TYPE_ALPHA4)
        \/ (4 < String.length asset_code
            /\ asset_type = ASSET_TYPE_ALPHA12)).
Proof.
  intros H. cbn [_read_operation] in H.
  destruct authorize; try discriminate; injection H as <-;
    eexists _, _; (split; [reflexivity|]); (split; [discriminate|]);
    (split; [cbn; auto|]);
    destruct (Nat.leb_spec (String.length asset_code) 4); auto.
Qed.

Lemma _read_operation_allow_trust_witness :
  exists asset_type is_authorized,
    StellarAllowTrustOp None "GBBB" ASSET_TYPE_ALPHA12 "LONGCODE" 1%Z
    = StellarAllowTrustOp (read_source None) "GBBB" asset_type "LONGCODE"
        is_authorized
    /\ stellar_sdk.AUTHORIZED_FLAG
       <> stellar_sdk.AUTHORIZED_TO_MAINTAIN_LIABILITIES_FLAG
    /\ (is_authorized = 0 \/ is_authorized = 1)%Z
    /\ ((String.length "LONGCODE" <= 4 /\ asset_type = ASSET_TYPE_ALPHA4)
        \/ (4 < String.length "LONGCODE"
            /\ asset_type = ASSET_TYPE_ALPHA12)).
Proof.
  apply (_read_operation_allow_trust None "GBBB" "LONGCODE"
           stellar_sdk.AUTHORIZED_FLAG).
  reflexivity.
Defined.

(** X10: the message for a [SetOptions] operation has [signer_type],
    [signer_key] and [signer_weight] all unset when the operation has no
    signer and all set when it has one; the signer type is then 0, 1 or 2,
    and a signer key of any other type makes the conversion fail. *)
Theorem _read_operation_set_options_signer {sdk : StellarSdk} source
    inflation_dest clear_flags set_flags master_weight low_threshold
    med_threshold high_threshold home_domain signer msg :
  _read_operation
    (stellar_sdk.SetOptions source inflation_dest clear_flags set_flags
       master_weight low_threshold med_threshold high_threshold home_domain
       signer)
  = Return msg ->
  exists signer_type signer_key signer_weight,
    msg = StellarSetOptionsOp (read_source source) inflation_dest
            clear_flags set_flags master_weight low_threshold med_threshold
            high_threshold home_domain signer_type signer_key signer_weight
    /\ match signer with
       | None =>
           signer_type = None /\ signer_key = None /\ signer_weight = None
       | Some s =>
           exists t key,
             signer_type = Some t
             /\ (0 <= t <= 2)%Z
             /\ t = stellar_sdk.SignerKeyType_value
                      (stellar_sdk.XdrSignerKey_type
                         (stellar_sdk.signer_key s))
             /\ signer_key = Some key
             /\ signer_weight = Some (stellar_sdk.weight s)
       end.
Proof.
  intros H. cbn [_read_operation] in H.
  destruct signer as [s|].
  - bind_inversion H. injection H as <-.
    eexists _, _, _. split; [reflexivity|].
    eexists _, _. split; [reflexivity|].
    destruct (stellar_sdk.signer_key s); try discriminate;
      cbn; repeat split; lia.
  - injection H as <-. eexists _, _, _. repeat split.
Qed.

Lemma _read_operation_set_options_signer_witness :
  exists signer_type signer_key signer_weight,
    StellarSetOptionsOp None None None None None None None None None
      (Some 2%Z) (Some [x0a]) (Some 1%Z)
    = StellarSetOptionsOp (read_source None) None None None None None None
        None None signer_type signer_key signer_weight
    /\ exists t key,
         signer_type = Some t
         /\ (0 <= t <= 2)%Z
         /\ t = stellar_sdk.SignerKeyType_value
                  (stellar_sdk.XdrSignerKey_type (stellar_sdk.xdr_hash_x [x0a]))
         /\ signer_key = Some key
         /\ signer_weight = Some 1%Z.
Proof.
  apply (_read_operation_set_options_signer None None None None None None
           None None None
           (Some (stellar_sdk.mkSigner (stellar_sdk.xdr_hash_x [x0a]) 1%Z))).
  reflexivity.
Defined.

(** X11: the [paths] of the message for a path payment are the
    conversions of the operation's [path], one for each asset and in the
    same order; the other assets and the amounts are converted as well. *)
Theorem _read_operation_path_payment {sdk : StellarSdk} source destination
    send_asset send_max dest_asset dest_amount path msg :
  _read_operation
    (stellar_sdk.PathPaymentStrictReceive source destination send_asset
       send_max dest_asset dest_amount path)
  = Return msg ->
  exists send_asset' send_max' dest_asset' dest_amount' paths,
    msg = StellarPathPaymentOp (read_source source) send_asset' send_max'
            (stellar_sdk.account_id destination) dest_asset' dest_amount'
            paths
    /\ _read_asset send_asset = Return send_asset'
    /\ _read_amount send_max = Return send_max'
    /\ _read_asset dest_asset = Return dest_asset'
    /\ _read_amount dest_amount = Return dest_amount'
    /\ List.length paths = List.length path
    /\ Forall2 (fun asset converted => _read_asset asset = Return converted)
         path paths.
Proof.
  intros H. cbn [_read_operation] in H. bind_inversion H.
  injection H as <-.
  match goal with
  | Hpaths : list_comprehension _read_asset path = Return _ |- _ =>
      apply list_comprehension_Forall2 in Hpaths;
      pose proof (Forall2_length Hpaths) as Hlen
  end.
  eexists _, _, _, _, _. repeat split; eauto.
Qed.

Lemma _read_operation_path_payment_witness :
  exists send_asset' send_max' dest_asset' dest_amount' paths,
    StellarPathPaymentOp None
      (mkStellarAssetType ASSET_TYPE_NATIVE None None) 10000000%Z "GBBB"
      (mkStellarAssetType ASSET_TYPE_ALPHA4 (Some "USD") (Some "GCCC"))
      10000000%Z
      [mkStellarAssetType ASSET_TYPE_ALPHA12 (Some "LONGCODE") (Some "GCCC");
       mkStellarAssetType ASSET_TYPE_NATIVE None None]
    = StellarPathPaymentOp (read_source None) send_asset' send_max' "GBBB"
        dest_asset' dest_amount' paths
    /\ _read_asset (stellar_sdk.mkAsset "XLM" None) = Return send_asset'
    /\ _read_amount "1" = Return send_max'
    /\ _read_asset (stellar_sdk.mkAsset "USD" (Some "GCCC"))
       = Return dest_asset'
    /\ _read_amount "1" = Return dest_amount'
    /\ List.length paths = 2
    /\ Forall2 (fun asset converted => _read_asset asset = Return converted)
         [stellar_sdk.mkAsset "LONGCODE" (Some "GCCC");
          stellar_sdk.mkAsset "XLM" None]
         paths.
Proof.
  apply (_read_operation_path_payment None
           (stellar_sdk.mkMuxedAccount "GBBB")
           (stellar_sdk.mkAsset "XLM" None) "1"
           (stellar_sdk.mkAsset "USD" (Some "GCCC")) "1"
           [stellar_sdk.mkAsset "LONGCODE" (Some "GCCC");
            stellar_sdk.mkAsset "XLM" None]).
  reflexivity.
Defined.

(** The comprehension succeeds exactly when every element converts. *)
Lemma list_comprehension_accepts {A B : Type} (f : A -> result B) xs :
  (exists ys, list_comprehension f xs = Return ys)
  <-> Forall (fun x => exists y, f x = Return y) xs.
Proof.
  split.
  - intros (ys & H). apply list_comprehension_Forall2 in H.
    induction H; constructor; eauto.
  - induction 1 as [|x xs (y & Hx) _ (ys & IH)]; simpl.
    + now exists [].
    + exists (y :: ys). now rewrite Hx, IH.
Qed.

(** What an accepted envelope tells about the run of [from_envelope]. *)
Lemma from_envelope_inversion {sdk : StellarSdk} envelope header0 ops :
  from_envelope envelope = Return (header0, ops) ->
  HAVE_STELLAR_SDK = true
  /\ list_comprehension _read_operation
       (stellar_sdk.operations (stellar_sdk.transaction envelope))
     = Return ops
  /\ messages.num_operations header0
     = Some (Z.of_nat
               (List.length
                  (stellar_sdk.operations (stellar_sdk.transaction envelope))))
  /\ List.length ops
     = List.length
         (stellar_sdk.operations (stellar_sdk.transaction envelope)).
Proof.
  unfold from_envelope.
  destruct HAVE_STELLAR_SDK; cbn [negb]; [|discriminate].
  cbv zeta. intros H. bind_inversion H. injection H as <- <-.
  match goal with
  | Hops : list_comprehension _read_operation _ = Return _ |- _ =>
      pose proof (Forall2_length (list_comprehension_Forall2 _ _ _ Hops))
        as Hlen
  end.
  auto.
Qed.

(** X12: [from_envelope] accepts an envelope exactly when the SDK was
    imported, the text of a text memo decodes as UTF-8, and every operation
    of the transaction converts. *)
Theorem from_envelope_accepts {sdk : StellarSdk} envelope :
  (exists header0 ops, from_envelope envelope = Return (header0, ops))
  <-> (HAVE_STELLAR_SDK = true
       /\ match stellar_sdk.memo (stellar_sdk.transaction envelope) with
          | stellar_sdk.TextMemo memo_text =>
              exists text, decode_utf8 memo_text = Return text
          | _ => True
          end
       /\ Forall (fun op => exists msg, _read_operation op = Return msg)
            (stellar_sdk.operations (stellar_sdk.transaction envelope))).
Proof.
  rewrite <- list_comprehension_accepts.
  unfold from_envelope.
  destruct HAVE_STELLAR_SDK; cbn [negb];
    [|split; [intros (h & o & H); discriminate
             |intros (H & _); discriminate]].
  cbv zeta.
  split.
  - intros (h & o & H). bind_inversion H. split; [reflexivity|].
    split; [|eauto].
    destruct (stellar_sdk.memo (stellar_sdk.transaction envelope)); auto.
    match goal with
    | Hmemo : bind (decode_utf8 _) _ = Return _ |- _ =>
        bind_inversion Hmemo; eauto
    end.
  - intros (_ & Hmemo & (converted & Hops)). rewrite Hops.
    destruct (stellar_sdk.memo (stellar_sdk.transaction envelope));
      try (cbn [bind]; eauto).
    destruct Hmemo as (text & ->). cbn [bind]. eauto.
Qed.

(** X13: [from_envelope] raises the exception of the first operation that
    [_read_operation] rejects: nothing after it is looked at, and no
    partial list is returned. *)
Theorem from_envelope_first_rejected_operation {sdk : StellarSdk} envelope
    good converted bad rest e :
  HAVE_STELLAR_SDK = true ->
  match stellar_sdk.memo (stellar_sdk.transaction envelope) with
  | stellar_sdk.TextMemo memo_text =>
      exists text, decode_utf8 memo_text = Return text
  | _ => True
  end ->
  stellar_sdk.operations (stellar_sdk.transaction envelope)
  = good ++ bad :: rest ->
  Forall2 (fun op msg => _read_operation op = Return msg) good converted ->
  _read_operation bad = Raise e ->
  from_envelope envelope = Raise e.
Proof.
  intros Hsdk Hmemo Hops Hgood Hbad.
  unfold from_envelope. rewrite Hsdk. cbn [negb]. cbv zeta.
  rewrite Hops.
  rewrite (list_comprehension_first_error _ _ _ _ _ _ Hgood Hbad).
  destruct (stellar_sdk.memo (stellar_sdk.transaction envelope));
    try reflexivity.
  destruct Hmemo as (text & ->). reflexivity.
Qed.

Lemma from_envelope_first_rejected_operation_witness :
  from_envelope sample_envelope_with_inflation
  = Raise (ValueError "Unknown operation type: Inflation").
Proof.
  apply (from_envelope_first_rejected_operation
           sample_envelope_with_inflation
           [stellar_sdk.BumpSequence None 9%Z]
           [StellarBumpSequenceOp None 9%Z]
           (stellar_sdk.OtherOperation None "Inflation")
           [stellar_sdk.Payment None (stellar_sdk.mkMuxedAccount "GBBB")
              (stellar_sdk.mkAsset "USD" (Some "GCCC")) "not an amount"]).
  - reflexivity.
  - exact I.
  - reflexivity.
  - repeat constructor.
  - reflexivity.
Defined.

(** X14: a text memo that does not decode as UTF-8 makes [from_envelope]
    raise the decoding error, whatever the operations are: the memo is read
    before any operation is converted. *)
Theorem from_envelope_memo_decode_error {sdk : StellarSdk} envelope
    memo_text e :
  HAVE_STELLAR_SDK = true ->
  stellar_sdk.memo (stellar_sdk.transaction envelope)
  = stellar_sdk.TextMemo memo_text ->
  decode_utf8 memo_text = Raise e ->
  from_envelope envelope = Raise e.
Proof.
  intros Hsdk Hmemo Hdecode.
  unfold from_envelope. rewrite Hsdk, Hmemo. cbn [negb]. cbv zeta.
  now rewrite Hdecode.
Qed.

Lemma from_envelope_memo_decode_error_witness :
  from_envelope (sdk := ascii_sdk) sample_envelope_with_bad_memo
  = Raise (UnicodeDecodeError "invalid start byte").
Proof.
  apply (from_envelope_memo_decode_error (sdk := ascii_sdk)
           sample_envelope_with_bad_memo [xff; x41]).
  - reflexivity.
  - reflexivity.
  - reflexivity.
Defined.



(** X16: the memo attributes of the header of an accepted envelope are
    consistent: [memo_type] is one of the five memo types, [memo_text] is
    set exactly for a text memo, [memo_id] exactly for an id memo, and
    [memo_hash] exactly for a hash or a return-hash memo. *)
Theorem from_envelope_memo_consistent {sdk : StellarSdk} envelope header0
    ops :
  from_envelope envelope = Return (header0, ops) ->
  exists t,
    messages.memo_type header0 = Some t
    /\ (0 <= t <= 4)%Z
    /\ (messages.memo_text header0 <> None <-> t = MEMO_TYPE_TEXT)
    /\ (messages.memo_id header0 <> None <-> t = MEMO_TYPE_ID)
    /\ (messages.memo_hash header0 <> None
        <-> t = MEMO_TYPE_HASH \/ t = MEMO_TYPE_RETURN).
Proof.
  unfold from_envelope.
  destruct HAVE_STELLAR_SDK; cbn [negb]; [|discriminate].
  cbv zeta. intros H. bind_inversion H. injection H as <- _.
  destruct (stellar_sdk.time_bounds (stellar_sdk.transaction envelope));
    destruct (stellar_sdk.memo (stellar_sdk.transaction envelope));
    match goal with
    | Hmemo : _ = Return _ |- _ =>
        bind_inversion Hmemo; injection Hmemo as <-
    end;
    cbn; eexists; (split; [reflexivity|]);
    unfold MEMO_TYPE_TEXT, MEMO_TYPE_ID, MEMO_TYPE_HASH, MEMO_TYPE_RETURN,
      MEMO_TYPE_NONE;
    (split; [lia|]);
    repeat split; intros Hx;
    try discriminate; try lia; try (now elim Hx);
    try (destruct Hx; discriminate).
Qed.

Lemma from_envelope_memo_consistent_witness :
  exists t,
    messages.memo_type sample_converted_tx = Some t
    /\ (0 <= t <= 4)%Z
    /\ (messages.memo_text sample_converted_tx <> None <-> t = MEMO_TYPE_TEXT)
    /\ (messages.memo_id sample_converted_tx <> None <-> t = MEMO_TYPE_ID)
    /\ (messages.memo_hash sample_converted_tx <> None
        <-> t = MEMO_TYPE_HASH \/ t = MEMO_TYPE_RETURN).
Proof.
  apply (from_envelope_memo_consistent sample_envelope sample_converted_tx
           sample_converted_operations).
  reflexivity.
Defined.

(** X17: an envelope that holds an operation of a class the converter does
    not know, anywhere among its operations, is not accepted: there is no
    partial conversion that leaves the operation out. *)
Theorem from_envelope_rejects_unknown_operation {sdk : StellarSdk} envelope
    source name :
  In (stellar_sdk.OtherOperation source name)
    (stellar_sdk.operations (stellar_sdk.transaction envelope)) ->
  exists e, from_envelope envelope = Raise e.
Proof.
  intros Hin.
  destruct (from_envelope envelope) as [[header0 ops]|e] eqn:H; [|eauto].
  apply from_envelope_inversion in H. destruct H as (_ & Hops & _).
  apply list_comprehension_Forall2 in Hops.
  destruct (Forall2_In_left _ _ _ _ Hops Hin) as (msg & Hmsg).
  discriminate.
Qed.

Lemma from_envelope_rejects_unknown_operation_witness :
  exists e, from_envelope sample_envelope_with_inflation = Raise e.
Proof.
  apply (from_envelope_rejects_unknown_operation
           sample_envelope_with_inflation None "Inflation").
  simpl. right. left. reflexivity.
Defined.

(** X18: the header and the operations of an accepted envelope can be
    handed to [sign_tx] as they are: [sign_tx] changes the header in
    [network_passphrase] and [address_n] only, the count it declares is the
    number of operations of the envelope, and with a device that asks for
    each of them and then signs, all converted operations are sent in order
    and the signed transaction is returned. *)
Theorem from_envelope_then_sign_tx {sdk : StellarSdk} envelope header0 ops
    client0 address_n passphrase pk sig :
  from_envelope envelope = Return (header0, ops) ->
  (forall i,
      i < List.length
            (stellar_sdk.operations (stellar_sdk.transaction envelope)) ->
      answer client0 i = Return StellarTxOpRequest) ->
  answer client0
    (List.length (stellar_sdk.operations (stellar_sdk.transaction envelope)))
  = Return (StellarSignedTx pk sig) ->
  let store := fst (sign_tx client0 header0 ops address_n passphrase) in
  snd (sign_tx client0 header0 ops address_n passphrase)
  = Return (StellarSignedTx pk sig)
  /\ tx store = set_address_n (set_network_passphrase header0 passphrase)
                  address_n
  /\ messages.num_operations (tx store)
     = Some (Z.of_nat
               (List.length
                  (stellar_sdk.operations (stellar_sdk.transaction envelope))))
  /\ sent (client store) = sent client0 ++ SignTx (tx store) :: map Op ops
  /\ operations store = [].
Proof.
  intros Haccepted Hreq Hsigned.
  destruct (from_envelope_inversion _ _ _ Haccepted)
    as (_ & _ & Hcount & Hlen).
  rewrite <- Hlen in *.
  cbv zeta.
  rewrite (sign_tx_stops (List.length ops) _ _ _ _ _
             (Return (StellarSignedTx pk sig)));
    [|lia|assumption|assumption|discriminate].
  cbn [fst snd client tx operations negb isinstance_StellarSignedTx].
  rewrite skipn_all, firstn_all, sent_after. cbn [truthy].
  assert (Hheader : header header0 ops address_n passphrase
                    = set_address_n
                        (set_network_passphrase header0 passphrase)
                        address_n).
  { destruct header0; cbn in *. now rewrite Hcount. }
  rewrite Hheader. repeat split. cbn. exact Hcount.
Qed.

Lemma from_envelope_then_sign_tx_witness :
  snd (sign_tx
         (connect (scripted [Return StellarTxOpRequest;
                             Return StellarTxOpRequest;
                             Return sample_signed]))
         sample_converted_tx sample_converted_operations sample_address_n
         DEFAULT_NETWORK_PASSPHRASE)
  = Return sample_signed.
Proof.
  apply (from_envelope_then_sign_tx sample_envelope sample_converted_tx
           sample_converted_operations).
  - reflexivity.
  - intros i Hi. simpl in Hi.
    destruct i as [|[|i]]; [reflexivity | reflexivity | lia].
  - reflexivity.
Defined.

(* ------------------------------------------------------------------ *)
(** ** The list of operations after the call *)

Lemma firstn_succ_nth {A : Type} (l : list A) :
  forall j x, nth_error l j = Some x -> firstn (S j) l = firstn j l ++ [x].
Proof.
  induction l as [|y l IH]; intros [|j] x H; simpl in H; try discriminate.
  - now injection H as ->.
  - cbn [firstn app] in *. now rewrite (IH j x H).
Qed.

(** What [sign_tx] leaves behind when it returns. *)
Lemma sign_tx_return_store client0 tx0 ops address_n passphrase resp :
  snd (sign_tx client0 tx0 ops address_n passphrase) = Return resp ->
  fst (sign_tx client0 tx0 ops address_n passphrase)
  = mkStore
      (after client0
         (SignTx (header tx0 ops address_n passphrase) :: map Op ops))
      (header tx0 ops address_n passphrase)
      [].
Proof.
  intros Hret.
  destruct (first_other_answer (answer client0) (List.length ops))
    as [Hall|(j & Hj & Hbefore & Hat)].
  - rewrite sign_tx_asked_too_often in Hret by assumption. discriminate.
  - rewrite (sign_tx_stops j _ _ _ _ _ (answer client0 j))
      in Hret |- * by (assumption || reflexivity).
    cbn [fst snd] in *.
    destruct (answer client0 j) as [r|e].
    + destruct (isinstance_StellarSignedTx r); cbn [negb] in Hret;
        [|discriminate].
      destruct (truthy (skipn j ops)) eqn:Hleft; [discriminate|].
      apply truthy_false_nil in Hleft.
      pose proof (skipn_nil_all j ops Hj Hleft) as ->.
      now rewrite firstn_all, skipn_all.
    + destruct j, e; discriminate.
Qed.

(** X19: after a call that returned, the caller's list is empty, so a
    second call with the same header and the same list declares no
    operations and sends none: the header is its only request. *)
Theorem sign_tx_reuse_after_return client0 tx0 ops address_n passphrase
    resp address_n' passphrase' :
  snd (sign_tx client0 tx0 ops address_n passphrase) = Return resp ->
  let store := fst (sign_tx client0 tx0 ops address_n passphrase) in
  let store' :=
    fst (sign_tx (client store) (tx store) (operations store) address_n'
           passphrase') in
  messages.num_operations (tx store') = Some 0%Z
  /\ sent (client store') = sent (client store) ++ [SignTx (tx store')]
  /\ operations store' = [].
Proof.
  intros Hret. cbv zeta.
  rewrite (sign_tx_return_store _ _ _ _ _ _ Hret).
  cbn [client tx operations].
  match goal with
  | |- context [sign_tx ?c ?t [] _ _] =>
      destruct (sign_tx_store c t [] address_n' passphrase')
        as (k & Hk & _ & ->)
  end.
  cbn [List.length] in Hk. replace k with 0 by lia.
  cbn [client tx operations firstn skipn map]. rewrite sent_after.
  repeat split.
Qed.

Lemma sign_tx_reuse_after_return_witness :
  messages.num_operations
    (tx (fst (sign_tx
                (client
                   (fst (sign_tx
                           (connect (scripted [Return StellarTxOpRequest;
                                               Return sample_signed]))
                           sample_tx [StellarBumpSequenceOp None 5%Z]
                           sample_address_n DEFAULT_NETWORK_PASSPHRASE)))
                (tx
                   (fst (sign_tx
                           (connect (scripted [Return StellarTxOpRequest;
                                               Return sample_signed]))
                           sample_tx [StellarBumpSequenceOp None 5%Z]
                           sample_address_n DEFAULT_NETWORK_PASSPHRASE)))
                (operations
                   (fst (sign_tx
                           (connect (scripted [Return StellarTxOpRequest;
                                               Return sample_signed]))
                           sample_tx [StellarBumpSequenceOp None 5%Z]
                           sample_address_n DEFAULT_NETWORK_PASSPHRASE)))
                sample_address_n DEFAULT_NETWORK_PASSPHRASE)))
  = Some 0%Z.
Proof.
  apply (sign_tx_reuse_after_return
           (connect (scripted [Return StellarTxOpRequest;
                               Return sample_signed]))
           sample_tx [StellarBumpSequenceOp None 5%Z] sample_address_n
           DEFAULT_NETWORK_PASSPHRASE sample_signed).
  reflexivity.
Defined.

(** X20: an operation is popped before it is sent, so when the round trip
    for the operation number [j] raises, that operation is the last
    request made and it is no longer in the caller's list, which holds the
    operations after it. *)
Theorem sign_tx_failed_operation_is_consumed client0 tx0 ops address_n
    passphrase j op e :
  nth_error ops j = Some op ->
  (forall i, i < S j -> answer client0 i = Return StellarTxOpRequest) ->
  answer client0 (S j) = Raise e ->
  let store := fst (sign_tx client0 tx0 ops address_n passphrase) in
  operations store = skipn (S j) ops
  /\ last (sent (client store)) (SignTx (tx store)) = Op op
  /\ List.length (operations store) + S j = List.length ops
  /\ exists e', snd (sign_tx client0 tx0 ops address_n passphrase) = Raise e'.
Proof.
  intros Hop Hreq Hfail.
  assert (Hlt : j < List.length ops)
    by (apply nth_error_Some; congruence).
  cbv zeta.
  rewrite (sign_tx_stops (S j) _ _ _ _ _ (Raise e));
    [|lia|assumption|assumption|discriminate].
  cbn [fst snd client tx operations].
  rewrite sent_after, length_skipn, (firstn_succ_nth _ _ _ Hop), map_app.
  cbn [map]. rewrite app_comm_cons, app_assoc, last_last.
  repeat split; [lia|].
  destruct e; eauto.
Qed.

Lemma sign_tx_failed_operation_is_consumed_witness :
  operations
    (fst (sign_tx
            (connect (scripted [Return StellarTxOpRequest;
                                Return StellarTxOpRequest;
                                Raise (TransportError "device disconnected")]))
            sample_tx sample_operations sample_address_n
            DEFAULT_NETWORK_PASSPHRASE))
  = skipn 2 sample_operations.
Proof.
  apply (sign_tx_failed_operation_is_consumed _ _ _ _ _ 1
           (StellarAccountMergeOp (Some "GAAA") "GBBB")
           (TransportError "device disconnected")).
  - reflexivity.
  - intros i Hi. destruct i as [|[|i]]; [reflexivity | reflexivity | lia].
  - reflexivity.
Defined.
